(** * connect-mitm-proxy.go: a TLS-intercepting CONNECT proxy

    Shallow embedding of [src/2022/go-and-proxies/connect-mitm-proxy.go].

    The Go program is a sequence of calls into the standard library
    (crypto/x509, encoding/pem, net, net/http, crypto/tls, log).  Each
    function of the program is embedded as a computation in a small monad
    [M] that threads
      - the answers of the outside world (clock, randomness, file system,
        network, and the library routines whose code is not part of the
        repository), collected in a record [Env];
      - the list of effects performed so far ([Event]);
      - how the computation ended: a normal return, [log.Fatal] (which is
        [os.Exit(1)] and ends the whole process), or a run-time panic.

    [singleConnListener], whose only use in the program is commented out,
    is embedded on its own, as a state and its three methods.  The task
    server that follows the proxy in the source file is a separate
    program. *)

From Stdlib Require Import ZArith List String Ascii Lia Bool.
From stdpp Require Import base decidable countable strings list numbers.

Local Open Scope Z_scope.
Local Open Scope string_scope.
Local Open Scope list_scope.

(** ** Data *)

(** Go [[]byte] and Go [string] are both byte sequences; a Rocq [string] is
    a list of 8-bit characters. *)
Definition bytes := string.

(** A Go [error] value, identified with the text of its [Error()] method. *)
Definition error := string.

Inductive result (A : Type) : Type :=
| Ok (a : A)
| Err (e : error).
Arguments Ok {A} a.
Arguments Err {A} e.

Definition CR : ascii := "013"%char.
Definition LF : ascii := "010"%char.
Definition CRLF : string := String CR (String LF EmptyString).

(** *** time *)

(** [time.Time] as a wall-clock instant in nanoseconds since the Unix epoch;
    [time.Duration] is an [int64] count of nanoseconds. *)
Definition Time := Z.
Definition Duration := Z.

Definition wrap64 (z : Z) : Z := (z + 2 ^ 63) mod 2 ^ 64 - 2 ^ 63.

Definition Nanosecond : Duration := 1.
Definition Second : Duration := 1000000000 * Nanosecond.
Definition Hour : Duration := 3600 * Second.

(** [time.Duration(n) * d]: an [int64] product, which wraps around.  The Go
    [int] of [hoursValid] is taken to be 64 bits wide. *)
Definition Duration_mul (n : Z) (d : Duration) : Duration := wrap64 (n * d).

(** [t.Add(d)].  A [time.Time] covers far more than [int64] nanoseconds, so
    no wrap-around happens here. *)
Definition Time_Add (t : Time) (d : Duration) : Time := t + d.

(** [new(big.Int).Lsh(big.NewInt(1), 128)] *)
Definition serialNumberLimit : Z := Z.shiftl 1 128.

(** The largest [hoursValid] for which [hoursValid * time.Hour] fits an
    [int64]. *)
Definition maxHours : Z := 2562047.

(** *** crypto *)

Record ecdsa_PublicKey : Type := { X : Z; Y : Z }.
Record ecdsa_PrivateKey : Type := { PublicKey : ecdsa_PublicKey; D : Z }.

(** [crypto.PrivateKey] / [any] as returned by [x509.ParsePKCS8PrivateKey]. *)
Inductive PrivateKey : Type :=
| ECDSAKey (k : ecdsa_PrivateKey)
| RSAKey (n e d : Z).

(** *** crypto/x509 *)

Record pkix_Name : Type := {
  Country : list string;
  Organization : list string;
  OrganizationalUnit : list string;
  CommonName : string
}.

Definition emptyName : pkix_Name :=
  {| Country := []; Organization := []; OrganizationalUnit := [];
     CommonName := "" |}.

Inductive ExtKeyUsage : Type :=
| ExtKeyUsageAny
| ExtKeyUsageServerAuth
| ExtKeyUsageClientAuth
| ExtKeyUsageCodeSigning
| ExtKeyUsageEmailProtection.

(** [x509.KeyUsage] is a bit set; [KeyUsageDigitalSignature = 1 << 0]. *)
Definition KeyUsageDigitalSignature : Z := Z.shiftl 1 0.
Definition KeyUsageCertSign : Z := Z.shiftl 1 5.

(** The fields of [x509.Certificate] the program reads or writes.  Fields
    the composite literal in [createCert] does not mention keep their zero
    value. *)
Record Certificate : Type := {
  SerialNumber : Z;
  Issuer : pkix_Name;
  Subject : pkix_Name;
  NotBefore : Time;
  NotAfter : Time;
  KeyUsage : Z;
  ExtKeyUsages : list ExtKeyUsage;
  BasicConstraintsValid : bool;
  IsCA : bool;
  DNSNames : list string
}.

(** *** encoding/pem *)

Record pem_Block : Type := {
  Type_ : string;
  Headers : list (string * string);
  Bytes : bytes
}.

(** *** net, net/http, crypto/tls *)

(** Connections and response writers are identified by a number. *)
Definition Conn := nat.
Definition ResponseWriter := nat.

Record Request : Type := {
  Method : string;
  Host : string;
  RemoteAddr : string
}.

Definition MethodConnect : string := "CONNECT".
Definition StatusMethodNotAllowed : Z := 405.
Definition StatusServiceUnavailable : Z := 503.

Record tls_Certificate : Type := {
  Chain : list bytes;
  Key : PrivateKey
}.

Inductive CurveID : Type := CurveP256 | CurveP384 | CurveP521 | X25519.

Definition VersionTLS12 : Z := 771.
Definition VersionTLS13 : Z := 772.

Record tls_Config : Type := {
  PreferServerCipherSuites : bool;
  CurvePreferences : list CurveID;
  MinVersion : Z;
  Certificates : list tls_Certificate
}.

(** ** The outside world *)

(** Everything the program obtains from outside its own text.  The clock and
    the random source are indexed by the number of earlier uses; the pure
    library routines (PEM, DER, PKCS#8, host/port splitting) are functions
    of their arguments. *)
Record Env : Type := {
  (* time.Now(), by number of earlier readings *)
  clock : nat -> Time;
  (* crypto/rand through ecdsa.GenerateKey, rand.Int, x509.CreateCertificate,
     by number of earlier draws *)
  generateKey : nat -> result ecdsa_PrivateKey;
  randInt : nat -> Z -> result Z;
  createCertificate :
    nat -> Certificate -> Certificate -> ecdsa_PublicKey -> PrivateKey ->
    result bytes;
  (* pure library routines *)
  parseCertificate : bytes -> result Certificate;
  marshalPKCS8PrivateKey : ecdsa_PrivateKey -> result bytes;
  parsePKCS8PrivateKey : bytes -> result PrivateKey;
  pemEncodeToMemory : pem_Block -> option bytes;
  pemDecode : bytes -> option pem_Block * bytes;
  splitHostPort : string -> result (string * string);
  x509KeyPair : bytes -> bytes -> result tls_Certificate;
  (* file system and network; [inbound] are the requests the listener
     hands to the handler before it stops with [listenError] *)
  readFile : string -> result bytes;
  inbound : list (ResponseWriter * Request);
  listenError : error;
  dial : string -> string -> result Conn;
  hijacker : ResponseWriter -> bool;
  hijack : ResponseWriter -> result Conn;
  write : Conn -> bytes -> result Z;
  handshake : Conn -> tls_Config -> option error
}.

(** ** Effects *)

(** One constructor per effect on the outside world, with the arguments of
    the call and the answer it got.  [EvRead] and [EvClose] complete the
    [net.Conn] interface ([Read], [Write], [Close]). *)
Inductive Event : Type :=
| EvLog (msg : string)
| EvFatal (msg : string)
| EvPanic (msg : string)
| EvNow (t : Time)
| EvGenerateKey (r : result ecdsa_PrivateKey)
| EvRandInt (max : Z) (r : result Z)
| EvCreateCertificate (template parent : Certificate)
    (pub : ecdsa_PublicKey) (priv : PrivateKey) (r : result bytes)
| EvReadFile (name : string) (r : result bytes)
| EvDial (network address : string) (r : result Conn)
| EvHttpError (w : ResponseWriter) (body : string) (code : Z)
| EvHijack (w : ResponseWriter) (r : result Conn)
| EvRead (c : Conn) (r : result bytes)
| EvWrite (c : Conn) (b : bytes) (r : result Z)
| EvClose (c : Conn)
| EvHandshake (c : Conn) (cfg : tls_Config) (r : option error).

(** How a computation ends. *)
Inductive Outcome (A : Type) : Type :=
| Done (a : A)
| Fatal
| Panic.
Arguments Done {A} a.
Arguments Fatal {A}.
Arguments Panic {A}.

Record Counters : Type := { ticks : nat; draws : nat }.

Record Run (A : Type) : Type := mkRun {
  outcome : Outcome A;
  final : Counters;
  events : list Event
}.
Arguments mkRun {A} outcome final events.
Arguments outcome {A} r.
Arguments final {A} r.
Arguments events {A} r.

Definition M (A : Type) : Type := Counters -> Run A.

Definition ret {A} (a : A) : M A := fun s => mkRun (Done a) s [].

Definition bind {A B} (m : M A) (f : A -> M B) : M B := fun s =>
  match m s with
  | mkRun (Done a) s1 evs1 =>
      match f a s1 with
      | mkRun o s2 evs2 => mkRun o s2 (evs1 ++ evs2)
      end
  | mkRun Fatal s1 evs1 => mkRun Fatal s1 evs1
  | mkRun Panic s1 evs1 => mkRun Panic s1 evs1
  end.

Declare Scope go_scope.
Delimit Scope go_scope with go.
Notation "x <- m ;; k" := (bind m (fun x => k))
  (at level 100, m at next level, k at level 200, right associativity) : go_scope.
Notation "m ;; k" := (bind m (fun _ => k))
  (at level 100, k at level 200, right associativity) : go_scope.
Local Open Scope go_scope.

Definition emit (e : Event) : M unit := fun s => mkRun (Done tt) s [e].

(** [log.Println], [log.Printf]: only the literal text of the call is kept,
    the formatted operands are not. *)
Definition log_Println (msg : string) : M unit := emit (EvLog msg).

(** [log.Fatal], [log.Fatalf]: print, then [os.Exit(1)]. *)
Definition log_Fatal {A} (msg : string) : M A :=
  fun s => mkRun Fatal s [EvFatal msg].

(** Dereferencing a nil pointer. *)
Definition nil_dereference {A} : M A :=
  fun s => mkRun Panic s
    [EvPanic "invalid memory address or nil pointer dereference"].

Section Program.

Variable env : Env.

(** *** Library calls *)

Definition time_Now : M Time := fun s =>
  let t := clock env (ticks s) in
  mkRun (Done t) {| ticks := S (ticks s); draws := draws s |} [EvNow t].

Definition next_draw (s : Counters) : Counters :=
  {| ticks := ticks s; draws := S (draws s) |}.

Definition ecdsa_GenerateKey : M (result ecdsa_PrivateKey) := fun s =>
  let r := generateKey env (draws s) in
  mkRun (Done r) (next_draw s) [EvGenerateKey r].

Definition rand_Int (max : Z) : M (result Z) := fun s =>
  let r := randInt env (draws s) max in
  mkRun (Done r) (next_draw s) [EvRandInt max r].

Definition x509_CreateCertificate (template parent : Certificate)
    (pub : ecdsa_PublicKey) (priv : PrivateKey) : M (result bytes) := fun s =>
  let r := createCertificate env (draws s) template parent pub priv in
  mkRun (Done r) (next_draw s) [EvCreateCertificate template parent pub priv r].

Definition ioutil_ReadFile (name : string) : M (result bytes) := fun s =>
  let r := readFile env name in
  mkRun (Done r) s [EvReadFile name r].

Definition net_Dial (network address : string) : M (result Conn) := fun s =>
  let r := dial env network address in
  mkRun (Done r) s [EvDial network address r].

Definition http_Error (w : ResponseWriter) (body : string) (code : Z) : M unit :=
  emit (EvHttpError w body code).

Definition Hijack (w : ResponseWriter) : M (result Conn) := fun s =>
  let r := hijack env w in
  mkRun (Done r) s [EvHijack w r].

Definition Conn_Write (c : Conn) (b : bytes) : M (result Z) := fun s =>
  let r := write env c b in
  mkRun (Done r) s [EvWrite c b r].

(** [tls.Server(c, cfg).Handshake()] *)
Definition tls_Server_Handshake (c : Conn) (cfg : tls_Config) : M (option error) :=
  fun s =>
    let r := handshake env c cfg in
    mkRun (Done r) s [EvHandshake c cfg r].

(** *** createCert (lines 50-96) *)

Definition createCert (dnsNames : list string) (parent : Certificate)
    (parentKey : PrivateKey) (hoursValid : Z) : M (bytes * bytes) :=
  log_Println "creating cert for domains:" ;;
  r <- ecdsa_GenerateKey ;;
  match r with
  | Err _ => log_Fatal "Failed to generate private key: %v"
  | Ok privateKey =>
  r <- rand_Int serialNumberLimit ;;
  match r with
  | Err _ => log_Fatal "Failed to generate serial number: %v"
  | Ok serialNumber =>
  now1 <- time_Now ;;
  now2 <- time_Now ;;
  let template :=
    {| SerialNumber := serialNumber;
       Issuer := emptyName;
       Subject := {| Country := []; Organization := ["My Corp"];
                     OrganizationalUnit := []; CommonName := "" |};
       DNSNames := dnsNames;
       NotBefore := now1;
       NotAfter := Time_Add now2 (Duration_mul hoursValid Hour);
       KeyUsage := KeyUsageDigitalSignature;
       ExtKeyUsages := [ExtKeyUsageServerAuth; ExtKeyUsageClientAuth];
       BasicConstraintsValid := true;
       IsCA := false |} in
  r <- x509_CreateCertificate template parent (PublicKey privateKey) parentKey ;;
  match r with
  | Err _ => log_Fatal "Failed to create certificate: %v"
  | Ok derBytes =>
  match pemEncodeToMemory env
          {| Type_ := "CERTIFICATE"; Headers := []; Bytes := derBytes |} with
  | None => log_Fatal "failed to encode certificate to PEM"
  | Some pemCert =>
  match marshalPKCS8PrivateKey env privateKey with
  | Err _ => log_Fatal "Unable to marshal private key: %v"
  | Ok privBytes =>
  (* the source tests pemCert again here, which is not nil at this point;
     a nil pemKey is returned as it is, an empty slice *)
  let pemKey := pemEncodeToMemory env
          {| Type_ := "PRIVATE KEY"; Headers := []; Bytes := privBytes |} in
  ret (pemCert, default "" pemKey)
  end end end end end.

(** *** loadX509KeyPair (lines 98-121) *)

Definition loadX509KeyPair (certFile keyFile : string)
  : M (result (Certificate * PrivateKey)) :=
  r <- ioutil_ReadFile certFile ;;
  match r with
  | Err err => ret (Err err)
  | Ok cf =>
  r <- ioutil_ReadFile keyFile ;;
  match r with
  | Err err => ret (Err err)
  | Ok kf =>
  let (certBlock, _) := pemDecode env cf in
  (* certBlock.Bytes, certBlock being nil when no PEM block was found *)
  match certBlock with
  | None => nil_dereference
  | Some certBlock =>
  match parseCertificate env (Bytes certBlock) with
  | Err err => ret (Err err)
  | Ok cert =>
  let (keyBlock, _) := pemDecode env kf in
  match keyBlock with
  | None => nil_dereference
  | Some keyBlock =>
  match parsePKCS8PrivateKey env (Bytes keyBlock) with
  | Err err => ret (Err err)
  | Ok key => ret (Ok (cert, key))
  end end end end end end.

(** *** forwardProxy, createForwardProxy, proxyConnect, ServeHTTP (lines 123-219) *)

Record forwardProxy : Type := {
  caCert : Certificate;
  caKey : PrivateKey
}.

Definition createForwardProxy (caCertFile caKeyFile : string) : M forwardProxy :=
  r <- loadX509KeyPair caCertFile caKeyFile ;;
  match r with
  | Err _ => log_Fatal "Error loading CA certificate/key:"
  | Ok (caCert, caKey) =>
      log_Println "loaded CA certificate and key; IsCA=%v" ;;
      ret {| caCert := caCert; caKey := caKey |}
  end.

Definition status200 : bytes := "HTTP/1.1 200 OK" +:+ CRLF +:+ CRLF.

Definition proxyConnect (p : forwardProxy) (w : ResponseWriter) (req : Request)
  : M unit :=
  log_Println "CONNECT requested to %v (from %v)" ;;
  r <- net_Dial "tcp" (Host req) ;;
  match r with
  | Err err =>
      log_Println "failed to dial to target" ;;
      http_Error w err StatusServiceUnavailable ;;
      ret tt
  | Ok targetConn =>
  (* hj, ok := w.(http.Hijacker) *)
  if negb (hijacker env w) then
    log_Fatal "http server doesn't support hijacking connection"
  else
  r <- Hijack w ;;
  match r with
  | Err _ => log_Fatal "http hijacking failed"
  | Ok clientConn =>
  match splitHostPort env (Host req) with
  | Err _ => log_Fatal "error splitting host/port:"
  | Ok (host, _) =>
  pems <- createCert [host] (caCert p) (caKey p) 240 ;;
  let (pemCert, pemKey) := pems in
  match x509KeyPair env pemCert pemKey with
  | Err err => log_Fatal err
  | Ok tlsCert =>
  r <- Conn_Write clientConn status200 ;;
  match r with
  | Err _ => log_Fatal "error writing status to client:"
  | Ok _ =>
  let tlsConfig :=
    {| PreferServerCipherSuites := true;
       CurvePreferences := [X25519; CurveP256];
       MinVersion := VersionTLS13;
       Certificates := [tlsCert] |} in
  (* the source tests the err of tls.X509KeyPair once more here; it is nil *)
  r <- tls_Server_Handshake clientConn tlsConfig ;;
  match r with
  | Some _ => log_Fatal "error handshake"
  | None =>
  (* _ = targetConn *)
  ret tt
  end end end end end end.

Definition ServeHTTP (p : forwardProxy) (w : ResponseWriter) (req : Request)
  : M unit :=
  if decide (Method req = MethodConnect) then
    proxyConnect p w req
  else
    http_Error w "this proxy only supports CONNECT" StatusMethodNotAllowed.

(** *** main (lines 221-233) *)

(** The accept loop behind [http.ListenAndServe]: the handler runs once for
    every inbound request.  The library runs each in a goroutine of its own;
    here they run one after the other, which is one of the schedules the
    library allows and enough to see what [log.Fatal] in one of them does
    to the rest, [os.Exit] ending every goroutine at once.  The order of the
    events of different requests is that of this schedule only. *)
Fixpoint acceptLoop (handler : ResponseWriter -> Request -> M unit)
    (conns : list (ResponseWriter * Request)) : M unit :=
  match conns with
  | [] => ret tt
  | (w, req) :: rest => handler w req ;; acceptLoop handler rest
  end.

(** [http.ListenAndServe] returns only when the listener fails, and then
    with a non-nil error. *)
Definition http_ListenAndServe (addr : string)
    (handler : ResponseWriter -> Request -> M unit) : M error :=
  acceptLoop handler (inbound env) ;;
  ret (listenError env).

Definition main (addr caCertFile caKeyFile : string) : M unit :=
  proxy <- createForwardProxy caCertFile caKeyFile ;;
  log_Println "Starting proxy server on" ;;
  _ <- http_ListenAndServe addr (ServeHTTP proxy) ;;
  log_Fatal "ListenAndServe:".

End Program.

Arguments serialNumberLimit : simpl never.
Arguments Duration_mul : simpl never.
Arguments Time_Add : simpl never.
Arguments status200 : simpl never.

(** ** singleConnListener (lines 24-48) *)

(** A listener over one connection.  [conn] is nil once the connection has
    been handed out; [mu] tells whether the mutex is held. *)
Record singleConnListener : Type := {
  conn : option Conn;
  mu : bool
}.

Definition ErrClosedPipe : error := "io: read/write on closed pipe".

(** [l.mu.Lock()] returns once the mutex is free; on a held mutex the
    caller waits, which a single thread of calls never gets out of. *)
Definition mu_Lock (l : singleConnListener) : option singleConnListener :=
  if mu l then None else Some {| conn := conn l; mu := true |}.

Definition mu_Unlock (l : singleConnListener) : singleConnListener :=
  {| conn := conn l; mu := false |}.

(** [Accept]: the deferred [Unlock] runs on both ways out. *)
Definition Accept (l : singleConnListener)
  : option (result Conn * singleConnListener) :=
  match mu_Lock l with
  | None => None
  | Some l =>
      match conn l with
      | None => Some (Err ErrClosedPipe, mu_Unlock l)
      | Some c => Some (Ok c, mu_Unlock {| conn := None; mu := mu l |})
      end
  end.

(** [Addr] returns a nil address, [Close] a nil error. *)
Definition Addr (l : singleConnListener) : option string := None.

Definition Close (l : singleConnListener) : option error := None.

(** A caller of the listener, one call after the other. *)
Inductive ListenerCall : Type := CallAccept | CallAddr | CallClose.

Inductive ListenerReply : Type :=
| Accepted (r : result Conn)
| Address (a : option string)
| Closed (e : option error).

Fixpoint calls (cs : list ListenerCall) (l : singleConnListener)
  : option (list ListenerReply * singleConnListener) :=
  match cs with
  | [] => Some ([], l)
  | CallAccept :: rest =>
      match Accept l with
      | None => None
      | Some (r, l') =>
          match calls rest l' with
          | None => None
          | Some (rs, l'') => Some (Accepted r :: rs, l'')
          end
      end
  | CallAddr :: rest =>
      match calls rest l with
      | None => None
      | Some (rs, l') => Some (Address (Addr l) :: rs, l')
      end
  | CallClose :: rest =>
      match calls rest l with
      | None => None
      | Some (rs, l') => Some (Closed (Close l) :: rs, l')
      end
  end.

(** What the calls to [Accept] were answered. *)
Fixpoint accepted (rs : list ListenerReply) : list (result Conn) :=
  match rs with
  | [] => []
  | Accepted r :: rest => r :: accepted rest
  | _ :: rest => accepted rest
  end.

Fixpoint count_accepts (cs : list ListenerCall) : nat :=
  match cs with
  | [] => 0
  | CallAccept :: rest => S (count_accepts rest)
  | _ :: rest => count_accepts rest
  end.

(** ** What the libraries promise *)

(** The calls into encoding/pem, crypto/x509 and PKCS#8 are answered by
    [Env]; the properties below are the parts of their documented behaviour
    that the theorems on issued certificates rely on.  They are hypotheses
    of those theorems, and [Reference.env] further down satisfies them. *)

(** DER holds times to the second. *)
Definition truncSecond (t : Time) : Time := t / Second * Second.

(** A block of one of the two types the program writes, without headers, is
    encoded, and decoding the result gives the block back with nothing
    left over. *)
Definition pem_contract (env : Env) : Prop :=
  forall ty der, ty = "CERTIFICATE" \/ ty = "PRIVATE KEY" ->
    exists out,
      pemEncodeToMemory env {| Type_ := ty; Headers := []; Bytes := der |} = Some out /\
      pemDecode env out = (Some {| Type_ := ty; Headers := []; Bytes := der |}, "").

(** The composite literal of [createCert] (lines 63-75), as a function of
    what varies in it: the serial number, the DNS names, the two readings of
    the clock and [hoursValid]. *)
Definition forged_template (serialNumber : Z) (dnsNames : list string)
    (now1 now2 : Time) (hoursValid : Z) : Certificate :=
  {| SerialNumber := serialNumber;
     Issuer := emptyName;
     Subject := {| Country := []; Organization := ["My Corp"];
                   OrganizationalUnit := []; CommonName := "" |};
     DNSNames := dnsNames;
     NotBefore := now1;
     NotAfter := Time_Add now2 (Duration_mul hoursValid Hour);
     KeyUsage := KeyUsageDigitalSignature;
     ExtKeyUsages := [ExtKeyUsageServerAuth; ExtKeyUsageClientAuth];
     BasicConstraintsValid := true;
     IsCA := false |}.

(** When [x509.CreateCertificate] has signed a template of the kind
    [createCert] builds, which it need not (it refuses a DNS name that is
    not an IA5String, for one), the certificate parses: its issuer is the
    subject of [parent], its serial number and DNS names are those of the
    template, its validity that of the template cut to whole seconds. *)
Definition x509_contract (env : Env) : Prop :=
  forall i serialNumber dnsNames now1 now2 hoursValid parent pub priv der,
    let template := forged_template serialNumber dnsNames now1 now2 hoursValid in
    createCertificate env i template parent pub priv = Ok der ->
    exists cert,
      parseCertificate env der = Ok cert /\
      Issuer cert = Subject parent /\
      SerialNumber cert = SerialNumber template /\
      DNSNames cert = DNSNames template /\
      NotBefore cert = truncSecond (NotBefore template) /\
      NotAfter cert = truncSecond (NotAfter template).

(** A marshalled ECDSA key parses back to itself. *)
Definition pkcs8_contract (env : Env) : Prop :=
  forall k der, marshalPKCS8PrivateKey env k = Ok der ->
    parsePKCS8PrivateKey env der = Ok (ECDSAKey k).

(** ** A reference environment *)

(** A small but complete stand-in for the libraries and the outside world.
    It is not Go's encoding: certificates and keys are written as the bits
    of their [Countable] code, PEM as a header line followed by the payload.
    It shows that the contracts above can be met, and gives the theorems
    concrete runs to be checked on. *)
Module Reference.

#[global] Instance ecdsa_PublicKey_eq_dec : EqDecision ecdsa_PublicKey.
Proof. solve_decision. Defined.
#[global] Instance ecdsa_PrivateKey_eq_dec : EqDecision ecdsa_PrivateKey.
Proof. solve_decision. Defined.
#[global] Instance pkix_Name_eq_dec : EqDecision pkix_Name.
Proof. solve_decision. Defined.
#[global] Instance ExtKeyUsage_eq_dec : EqDecision ExtKeyUsage.
Proof. solve_decision. Defined.
#[global] Instance Certificate_eq_dec : EqDecision Certificate.
Proof. solve_decision. Defined.

#[global] Instance ecdsa_PrivateKey_countable : Countable ecdsa_PrivateKey.
Proof.
  refine (inj_countable'
    (fun k => (X (PublicKey k), Y (PublicKey k), D k))
    (fun t => let '(x, y, d) := t in
              {| PublicKey := {| X := x; Y := y |}; D := d |}) _).
  intros [[x y] d]. reflexivity.
Defined.

#[global] Instance pkix_Name_countable : Countable pkix_Name.
Proof.
  refine (inj_countable'
    (fun n => ((Country n, Organization n), (OrganizationalUnit n, CommonName n)))
    (fun t => let '((c, o), (ou, cn)) := t in
              {| Country := c; Organization := o;
                 OrganizationalUnit := ou; CommonName := cn |}) _).
  intros []. reflexivity.
Defined.

#[global] Instance ExtKeyUsage_countable : Countable ExtKeyUsage.
Proof.
  refine (inj_countable'
    (fun u => match u with
              | ExtKeyUsageAny => 0%nat
              | ExtKeyUsageServerAuth => 1%nat
              | ExtKeyUsageClientAuth => 2%nat
              | ExtKeyUsageCodeSigning => 3%nat
              | ExtKeyUsageEmailProtection => 4%nat
              end)
    (fun n => match n with
              | 0%nat => ExtKeyUsageAny
              | 1%nat => ExtKeyUsageServerAuth
              | 2%nat => ExtKeyUsageClientAuth
              | 3%nat => ExtKeyUsageCodeSigning
              | _ => ExtKeyUsageEmailProtection
              end) _).
  intros []; reflexivity.
Defined.

#[global] Instance Certificate_countable : Countable Certificate.
Proof.
  refine (inj_countable'
    (fun c => (((SerialNumber c, Issuer c), (Subject c, NotBefore c)),
               ((NotAfter c, KeyUsage c), (ExtKeyUsages c,
                (BasicConstraintsValid c, (IsCA c, DNSNames c))))))
    (fun t => let '(((sn, i), (su, nb)), ((na, ku), (eku, (bcv, (ca, dns))))) := t in
              {| SerialNumber := sn; Issuer := i; Subject := su;
                 NotBefore := nb; NotAfter := na; KeyUsage := ku;
                 ExtKeyUsages := eku; BasicConstraintsValid := bcv;
                 IsCA := ca; DNSNames := dns |}) _).
  intros []. reflexivity.
Defined.

(** Bits of a positive number, least significant first. *)
Fixpoint bits_of_pos (p : positive) : bytes :=
  match p with
  | xH => ""
  | xO q => String "0" (bits_of_pos q)
  | xI q => String "1" (bits_of_pos q)
  end.

Fixpoint pos_of_bits (b : bytes) : option positive :=
  match b with
  | EmptyString => Some xH
  | String c r =>
      if decide (c = "0"%char) then xO <$> pos_of_bits r
      else if decide (c = "1"%char) then xI <$> pos_of_bits r
      else None
  end.

Definition marshal {A} `{Countable A} (a : A) : bytes := bits_of_pos (encode a).

Definition unmarshal {A} `{Countable A} (what : error) (b : bytes) : result A :=
  match pos_of_bits b ≫= decode with
  | Some a => Ok a
  | None => Err what
  end.

(** What [x509.CreateCertificate] puts into the certificate it signs. *)
Definition issue (template parent : Certificate) : Certificate :=
  {| SerialNumber := SerialNumber template;
     Issuer := Subject parent;
     Subject := Subject template;
     NotBefore := truncSecond (NotBefore template);
     NotAfter := truncSecond (NotAfter template);
     KeyUsage := KeyUsage template;
     ExtKeyUsages := ExtKeyUsages template;
     BasicConstraintsValid := BasicConstraintsValid template;
     IsCA := IsCA template;
     DNSNames := DNSNames template |}.

Definition header (ty : string) : string :=
  "-----BEGIN " +:+ ty +:+ "-----" +:+ String LF "".

Fixpoint strip (prefix s : string) : option string :=
  match prefix, s with
  | EmptyString, _ => Some s
  | String a p, String b r => if decide (a = b) then strip p r else None
  | String _ _, EmptyString => None
  end.

Definition encodeBlock (b : pem_Block) : option bytes :=
  Some (header (Type_ b) +:+ Bytes b).

Definition pemDecodeAs (ty : string) (data : bytes) : option pem_Block :=
  (fun body => {| Type_ := ty; Headers := []; Bytes := body |})
    <$> strip (header ty) data.

Definition decodeBlock (data : bytes) : option pem_Block * bytes :=
  match pemDecodeAs "CERTIFICATE" data with
  | Some b => (Some b, "")
  | None =>
      match pemDecodeAs "PRIVATE KEY" data with
      | Some b => (Some b, "")
      | None => (None, data)
      end
  end.

(** Splitting at the last colon. *)
Fixpoint splitLastColon (s : string) : option (string * string) :=
  match s with
  | EmptyString => None
  | String c r =>
      match splitLastColon r with
      | Some (h, p) => Some (String c h, p)
      | None => if decide (c = ":"%char) then Some ("", r) else None
      end
  end.

Definition splitAtLastColon (hostport : string) : result (string * string) :=
  match splitLastColon hostport with
  | Some hp => Ok hp
  | None => Err "missing port in address"
  end.

Definition loadKeyPair (pemCert pemKey : bytes) : result tls_Certificate :=
  match pemDecodeAs "CERTIFICATE" pemCert, pemDecodeAs "PRIVATE KEY" pemKey with
  | Some c, Some k =>
      match unmarshal (A := ecdsa_PrivateKey) "tls: failed to parse private key" (Bytes k) with
      | Ok key => Ok {| Chain := [Bytes c]; Key := ECDSAKey key |}
      | Err e => Err e
      end
  | None, _ => Err "tls: failed to find any PEM data in certificate input"
  | _, None => Err "tls: failed to find any PEM data in key input"
  end.

(** The environment, over a file system and a queue of inbound requests.
    Dialling [127.0.0.1:1] is refused; response writer 2 cannot be hijacked,
    hijacking writer 1 fails, and the handshake on the connection of
    writer 3 fails. *)
Definition env_on (files : string -> result bytes)
    (queue : list (ResponseWriter * Request)) : Env :=
  {| clock := fun n => 1700000000123456789 + 1000 * Z.of_nat n;
     generateKey := fun n =>
       Ok {| PublicKey := {| X := 11 + Z.of_nat n; Y := 22 |}; D := 33 |};
     randInt := fun n _ => Ok (12345 + Z.of_nat n);
     createCertificate := fun _ template parent _ _ =>
       Ok (marshal (issue template parent));
     parseCertificate := unmarshal "x509: malformed certificate";
     marshalPKCS8PrivateKey := fun k => Ok (marshal k);
     parsePKCS8PrivateKey := fun b =>
       match unmarshal "x509: failed to parse private key" b with
       | Ok k => Ok (ECDSAKey k)
       | Err e => Err e
       end;
     pemEncodeToMemory := encodeBlock;
     pemDecode := decodeBlock;
     splitHostPort := splitAtLastColon;
     x509KeyPair := loadKeyPair;
     readFile := files;
     inbound := queue;
     listenError := "accept tcp 127.0.0.1:9999: use of closed network connection";
     dial := fun _ address =>
       if decide (address = "127.0.0.1:1")
       then Err "dial tcp 127.0.0.1:1: connect: connection refused"
       else Ok 7%nat;
     hijacker := fun w => negb (Nat.eqb w 2);
     hijack := fun w =>
       if Nat.eqb w 1 then Err "http: connection has been hijacked"
       else Ok (100 + w)%nat;
     write := fun _ b => Ok (Z.of_nat (String.length b));
     handshake := fun c _ =>
       if Nat.eqb c 103 then Some "remote error: tls: bad certificate" else None |}.

(** A name [x509.CreateCertificate] can put into a certificate: every byte
    below 128. *)
Fixpoint isIA5String (name : string) : bool :=
  match name with
  | EmptyString => true
  | String c rest => N.ltb (N_of_ascii c) 128 && isIA5String rest
  end.

(** An environment with its signing made to refuse, as crypto/x509 does, a
    template one of whose DNS names is not an IA5String. *)
Definition checking (e : Env) : Env :=
  {| clock := clock e;
     generateKey := generateKey e;
     randInt := randInt e;
     createCertificate := fun i template parent pub priv =>
       if forallb isIA5String (DNSNames template)
       then createCertificate e i template parent pub priv
       else Err "x509: name cannot be encoded as an IA5String";
     parseCertificate := parseCertificate e;
     marshalPKCS8PrivateKey := marshalPKCS8PrivateKey e;
     parsePKCS8PrivateKey := parsePKCS8PrivateKey e;
     pemEncodeToMemory := pemEncodeToMemory e;
     pemDecode := pemDecode e;
     splitHostPort := splitHostPort e;
     x509KeyPair := x509KeyPair e;
     readFile := readFile e;
     inbound := inbound e;
     listenError := listenError e;
     dial := dial e;
     hijacker := hijacker e;
     hijack := hijack e;
     write := write e;
     handshake := handshake e |}.

Definition no_files (name : string) : result bytes :=
  Err ("open " +:+ name +:+ ": no such file or directory").

Definition env : Env := env_on no_files [].

Definition strict : Env := checking env.

(** The two bytes of the letter e with an acute accent in UTF-8. *)
Definition e_acute : string := String "195" (String "169" EmptyString).

Definition s0 : Counters := {| ticks := 0; draws := 0 |}.

Definition caName : pkix_Name :=
  {| Country := ["JP"]; Organization := ["Proxy Root"];
     OrganizationalUnit := []; CommonName := "Proxy Root CA" |}.

Definition ca : Certificate :=
  {| SerialNumber := 1; Issuer := caName; Subject := caName;
     NotBefore := 1600000000 * Second; NotAfter := 1900000000 * Second;
     KeyUsage := Z.lor KeyUsageDigitalSignature KeyUsageCertSign;
     ExtKeyUsages := []; BasicConstraintsValid := true; IsCA := true;
     DNSNames := [] |}.

Definition caPrivateKey : PrivateKey :=
  ECDSAKey {| PublicKey := {| X := 5; Y := 6 |}; D := 7 |}.

Definition proxy : forwardProxy := {| caCert := ca; caKey := caPrivateKey |}.

Definition connectTo (target : string) : Request :=
  {| Method := "CONNECT"; Host := target; RemoteAddr := "127.0.0.1:50000" |}.

End Reference.

(** ** Reading a list of events *)

Definition is_read_file (e : Event) : Prop :=
  match e with EvReadFile _ _ => True | _ => False end.

Definition is_panic (e : Event) : Prop :=
  match e with EvPanic _ => True | _ => False end.


(** The payloads written to connections, in order. *)
Fixpoint written (evs : list Event) : list (Conn * bytes) :=
  match evs with
  | [] => []
  | EvWrite c b _ :: rest => (c, b) :: written rest
  | _ :: rest => written rest
  end.

(** The templates handed to [x509.CreateCertificate], in order. *)
Fixpoint templates (evs : list Event) : list Certificate :=
  match evs with
  | [] => []
  | EvCreateCertificate t _ _ _ _ :: rest => t :: templates rest
  | _ :: rest => templates rest
  end.

(** The DER certificates [x509.CreateCertificate] gave back, in order. *)
Fixpoint signed (evs : list Event) : list bytes :=
  match evs with
  | [] => []
  | EvCreateCertificate _ _ _ _ (Ok der) :: rest => der :: signed rest
  | _ :: rest => signed rest
  end.

Definition is_dial (e : Event) : Prop :=
  match e with EvDial _ _ _ => True | _ => False end.

Definition is_hijack (e : Event) : Prop :=
  match e with EvHijack _ _ => True | _ => False end.

Definition is_http_error (e : Event) : Prop :=
  match e with EvHttpError _ _ _ => True | _ => False end.

Definition is_close (e : Event) : Prop :=
  match e with EvClose _ => True | _ => False end.

Definition is_write (e : Event) : Prop :=
  match e with EvWrite _ _ _ => True | _ => False end.

(** The dial of [address] that succeeded. *)
Definition dialled (address : string) (e : Event) : Prop :=
  match e with EvDial "tcp" a (Ok _) => a = address | _ => False end.

(** The synthetic 200 response, written in full on connection [c]. *)
Definition status_written_on (c : Conn) (e : Event) : Prop :=
  match e with EvWrite c' b (Ok _) => c' = c /\ b = status200 | _ => False end.

(** [Q] holds of every event, given the events before it. *)
Fixpoint each_after (Q : list Event -> Event -> Prop) (seen evs : list Event)
  : Prop :=
  match evs with
  | [] => True
  | e :: rest => Q seen e /\ each_after Q (seen ++ [e]) rest
  end.

(** Where a write and the handshake stand in a run of [proxyConnect] for
    request [req] on response writer [w]: a write is of the 200 response, on
    the hijacked client connection, after the dial of the target has
    succeeded; the handshake is on that connection too, after the 200
    response has been written on it. *)
Definition tunnel_order (env : Env) (w : ResponseWriter) (req : Request)
    (pre : list Event) (e : Event) : Prop :=
  (forall c b r, e = EvWrite c b r ->
     hijack env w = Ok c /\ b = status200 /\ Exists (dialled (Host req)) pre) /\
  (forall c cfg r, e = EvHandshake c cfg r ->
     hijack env w = Ok c /\ Exists (status_written_on c) pre).

(** A 5xx response. *)
Definition is_server_error (e : Event) : Prop :=
  match e with EvHttpError _ _ code => 500 <= code < 600 | _ => False end.

(** A step after the dial that failed: hijack, key generation, serial
    number, signing, the write of the status line, the handshake. *)
Definition post_dial_failure (e : Event) : Prop :=
  match e with
  | EvHijack _ (Err _)
  | EvGenerateKey (Err _)
  | EvRandInt _ (Err _)
  | EvCreateCertificate _ _ _ _ (Err _)
  | EvWrite _ _ (Err _)
  | EvHandshake _ _ (Some _) => True
  | _ => False
  end.

(** The only use of a connection is on [c], and it is not a read or a close. *)
Definition leaves_alone (c : Conn) (e : Event) : Prop :=
  match e with
  | EvRead _ _ | EvClose _ => False
  | EvWrite c' _ _ | EvHandshake c' _ _ => c' = c
  | _ => True
  end.

(** Every event satisfying [Q] comes after one satisfying [P]. *)
Definition only_after (P Q : Event -> Prop) (evs : list Event) : Prop :=
  forall pre e post, evs = pre ++ e :: post -> Q e -> Exists P pre.

Definition no_event : Event := EvLog "".

Definition is_create (e : Event) : Prop :=
  match e with EvCreateCertificate _ _ _ _ _ => True | _ => False end.

(** A hijack, a signing that succeeded. *)
Definition hijacked (e : Event) : Prop :=
  match e with EvHijack _ (Ok _) => True | _ => False end.

Definition created (e : Event) : Prop :=
  match e with EvCreateCertificate _ _ _ _ (Ok _) => True | _ => False end.

(** The HTTP error responses, by response writer and status code. *)
Fixpoint responses (evs : list Event) : list (ResponseWriter * Z) :=
  match evs with
  | [] => []
  | EvHttpError w _ code :: rest => (w, code) :: responses rest
  | _ :: rest => responses rest
  end.

(** A request the proxy turns away: not a CONNECT, or a CONNECT whose
    target cannot be dialled; and the response it gets. *)
Definition turned_away (env : Env) (c : ResponseWriter * Request) : Prop :=
  Method (snd c) <> MethodConnect \/
  exists err, dial env "tcp" (Host (snd c)) = Err err.

Definition refusal (c : ResponseWriter * Request) : ResponseWriter * Z :=
  (fst c,
   if decide (Method (snd c) = MethodConnect)
   then StatusServiceUnavailable else StatusMethodNotAllowed).

(** ** Properties of a run *)

(** What [proxyConnect] does when the dial fails. *)
Definition dial_failure_events (w : ResponseWriter) (req : Request) (err : error)
  : list Event :=
  [EvLog "CONNECT requested to %v (from %v)";
   EvDial "tcp" (Host req) (Err err);
   EvLog "failed to dial to target";
   EvHttpError w err StatusServiceUnavailable].

Definition connectionEstablished : bytes :=
  "HTTP/1.1 200 Connection Established" +:+ CRLF +:+ CRLF.

(** What a run that reaches the handshake has written by then: [payload],
    once, on the connection the handshake runs on. *)
Definition answers_before_handshake (payload : bytes) (evs : list Event) : Prop :=
  forall c cfg r, In (EvHandshake c cfg r) evs -> written evs = [(c, payload)].

(** A relay between the two legs reads from each of them, and in the end
    closes both. *)
Definition relays (client upstream : Conn) (evs : list Event) : Prop :=
  (exists r, In (EvRead client r) evs) /\
  (exists r, In (EvRead upstream r) evs) /\
  In (EvClose client) evs /\
  In (EvClose upstream) evs.

(** Whenever the dial and the handshake both succeeded, a relay runs. *)
Definition tunnel_relayed (evs : list Event) : Prop :=
  forall address upstream client cfg,
    In (EvDial "tcp" address (Ok upstream)) evs ->
    In (EvHandshake client cfg None) evs ->
    relays client upstream evs.

(** The files [certFile] and [keyFile] hold what [createCert] returned. *)
Definition stored (env : Env) (certFile keyFile : string) (pems : bytes * bytes) : Prop :=
  readFile env certFile = Ok (fst pems) /\ readFile env keyFile = Ok (snd pems).

(** ** Runs in the reference environment *)

(** The run of a CONNECT to example.com:443 in the reference environment:
    every step succeeds. *)
Definition tunnel_events : list Event :=
  events (proxyConnect Reference.env Reference.proxy 0%nat
            (Reference.connectTo "example.com:443") Reference.s0).

(** The run of a CONNECT on a response writer whose hijack fails. *)
Definition failed_hijack : Run unit :=
  ServeHTTP Reference.env Reference.proxy 1%nat
    (Reference.connectTo "example.com:443") Reference.s0.

(** The PEM pair issued for example.com in the reference environment, and
    that environment with the pair stored in two files. *)
Definition leaf_pems : bytes * bytes :=
  match outcome (createCert Reference.env ["example.com"] Reference.ca
                   Reference.caPrivateKey 240 Reference.s0) with
  | Done pems => pems
  | _ => ("", "")
  end.

Definition leaf_files (name : string) : result bytes :=
  if decide (name = "leaf.pem") then Ok (fst leaf_pems)
  else if decide (name = "leaf.key") then Ok (snd leaf_pems)
  else Reference.no_files name.

(** A certificate file that holds the text [hello]. *)
Definition junk_files (name : string) : result bytes :=
  if decide (name = "ca.pem") then Ok "hello"
  else if decide (name = "ca.key") then Ok "hello"
  else Reference.no_files name.

(** Files whose PEM blocks carry the type of the other: the CA certificate
    in a block marked as a key, a key in a block marked as a certificate. *)
Definition odd_files (name : string) : result bytes :=
  if decide (name = "odd.pem")
  then Ok (Reference.header "PRIVATE KEY" +:+ Reference.marshal Reference.ca)
  else if decide (name = "odd.key")
  then Ok (Reference.header "CERTIFICATE"
           +:+ Reference.marshal {| PublicKey := {| X := 5; Y := 6 |}; D := 7 |})
  else Reference.no_files name.

(** Two inbound requests: a GET, then a CONNECT whose dial is refused. *)
Definition two_requests : list (ResponseWriter * Request) :=
  [(0%nat, {| Method := "GET"; Host := "example.com";
              RemoteAddr := "127.0.0.1:50000" |});
   (4%nat, Reference.connectTo "127.0.0.1:1")].

(** ** Runs and lists of events *)

Lemma only_after_nil P Q : only_after P Q [].
Proof. intros [|] ? ? H; discriminate H. Qed.

Lemma only_after_skip P Q e evs :
  ~ Q e -> only_after P Q evs -> only_after P Q (e :: evs).
Proof.
  intros Hn H [|x pre] e' post Heq HQ; simpl in Heq.
  - injection Heq as -> ->. contradiction.
  - injection Heq as -> ->. apply Exists_cons_tl. eapply H; eauto.
Qed.

Lemma only_after_seen P Q e evs :
  P e -> ~ Q e -> only_after P Q (e :: evs).
Proof.
  intros HP Hn [|x pre] e' post Heq HQ; simpl in Heq.
  - injection Heq as -> ->. contradiction.
  - injection Heq as -> ->. apply Exists_cons_hd. exact HP.
Qed.

Lemma bind_Done {A B} (m : M A) (f : A -> M B) s a s1 evs1 :
  m s = mkRun (Done a) s1 evs1 ->
  bind m f s =
    mkRun (outcome (f a s1)) (final (f a s1)) (evs1 ++ events (f a s1)).
Proof. intros E. unfold bind. rewrite E. destruct (f a s1); reflexivity. Qed.

Lemma bind_Fatal {A B} (m : M A) (f : A -> M B) s s1 evs1 :
  m s = mkRun Fatal s1 evs1 -> bind m f s = mkRun Fatal s1 evs1.
Proof. intros E. unfold bind. rewrite E. reflexivity. Qed.

(** Case analysis on the answers of the environment, one call at a time. *)
Ltac answer :=
  match goal with
  | |- context [match ?x with _ => _ end] =>
      lazymatch x with
      | context [match _ with _ => _ end] => fail
      | _ => destruct x eqn:?
      end
  end.

Ltac run_program :=
  cbv [proxyConnect createCert loadX509KeyPair createForwardProxy ServeHTTP
       bind ret emit log_Println log_Fatal nil_dereference http_Error
       time_Now ecdsa_GenerateKey rand_Int x509_CreateCertificate
       ioutil_ReadFile net_Dial Hijack Conn_Write tls_Server_Handshake
       next_draw];
  cbn.

Ltac ordered :=
  repeat first
    [ apply only_after_nil
    | apply only_after_seen; [simpl; solve [auto] | simpl; tauto]
    | apply only_after_skip; [simpl; tauto | ] ].

Ltac in_events H :=
  simpl in H;
  repeat match type of H with
         | _ \/ _ => destruct H as [H|H]
         | False => contradiction
         | _ = _ => try discriminate H
         end.

Ltac all_events :=
  repeat first [ apply Forall_nil | apply Forall_cons; [simpl; auto | ] ].

Ltac exists_event H :=
  repeat match type of H with
         | Exists _ (_ :: _) => apply Exists_cons in H; destruct H as [H|H]
         | Exists _ [] => apply Exists_nil in H; contradiction
         end;
  try (simpl in H; contradiction).

Lemma tunnel_handshake :
  exists cfg, In (EvHandshake 100%nat cfg None) tunnel_events.
Proof. vm_compute. eexists. do 10 right. left. reflexivity. Qed.

(** ** Arithmetic of the validity window *)

Lemma Duration_mul_Hour n :
  - maxHours <= n <= maxHours -> Duration_mul n Hour = n * Hour.
Proof.
  intros H. unfold Duration_mul, wrap64, maxHours in *.
  change Hour with 3600000000000 in *.
  rewrite Z.mod_small; lia.
Qed.

Lemma truncSecond_le t : truncSecond t <= t.
Proof.
  unfold truncSecond. change Second with 1000000000.
  pose proof (Z.mul_div_le t 1000000000). lia.
Qed.

Lemma truncSecond_gt t : t - Second < truncSecond t.
Proof.
  unfold truncSecond. change Second with 1000000000.
  pose proof (Z.mod_pos_bound t 1000000000).
  pose proof (Z.div_mod t 1000000000). lia.
Qed.

(** ** The reference environment keeps the contracts *)

Lemma pos_of_bits_of_pos p : Reference.pos_of_bits (Reference.bits_of_pos p) = Some p.
Proof. induction p as [q IH|q IH|]; simpl; rewrite ?IH; reflexivity. Qed.

Lemma unmarshal_marshal {A} `{Countable A} what (a : A) :
  Reference.unmarshal what (Reference.marshal a) = Ok a.
Proof.
  unfold Reference.unmarshal, Reference.marshal.
  rewrite pos_of_bits_of_pos. simpl. rewrite decode_encode. reflexivity.
Qed.

Lemma strip_app prefix s : Reference.strip prefix (prefix +:+ s) = Some s.
Proof.
  induction prefix as [|a prefix IH]; simpl; [reflexivity|].
  destruct (decide (a = a)); [exact IH | contradiction].
Qed.

Lemma pemDecodeAs_header ty der :
  Reference.pemDecodeAs ty (Reference.header ty +:+ der)
  = Some {| Type_ := ty; Headers := []; Bytes := der |}.
Proof. unfold Reference.pemDecodeAs. rewrite strip_app. reflexivity. Qed.

Lemma reference_pem files queue : pem_contract (Reference.env_on files queue).
Proof.
  intros ty der [-> | ->]; eexists; (split; [reflexivity|]).
  - change (Reference.decodeBlock (Reference.header "CERTIFICATE" +:+ der)
            = (Some {| Type_ := "CERTIFICATE"; Headers := []; Bytes := der |}, "")).
    unfold Reference.decodeBlock. rewrite pemDecodeAs_header. reflexivity.
  - change (Reference.decodeBlock (Reference.header "PRIVATE KEY" +:+ der)
            = (Some {| Type_ := "PRIVATE KEY"; Headers := []; Bytes := der |}, "")).
    unfold Reference.decodeBlock.
    replace (Reference.pemDecodeAs "CERTIFICATE"
               (Reference.header "PRIVATE KEY" +:+ der)) with (@None pem_Block)
      by reflexivity.
    rewrite pemDecodeAs_header. reflexivity.
Qed.

Lemma reference_x509 files queue : x509_contract (Reference.env_on files queue).
Proof.
  intros i serialNumber dnsNames now1 now2 hoursValid parent pub priv der template Hc.
  simpl in Hc. injection Hc as <-.
  exists (Reference.issue template parent). split.
  - apply unmarshal_marshal.
  - repeat split.
Qed.

Lemma reference_pkcs8 files queue : pkcs8_contract (Reference.env_on files queue).
Proof.
  intros k der Hm. simpl in Hm. injection Hm as <-. simpl.
  rewrite unmarshal_marshal. reflexivity.
Qed.

(** Refusing some templates keeps the contracts. *)
Lemma checking_x509 e : x509_contract e -> x509_contract (Reference.checking e).
Proof.
  intros H i serialNumber dnsNames now1 now2 hoursValid parent pub priv der template Hc.
  cbn in Hc. destruct (forallb Reference.isIA5String dnsNames); [|discriminate Hc].
  exact (H _ _ _ _ _ _ _ _ _ _ Hc).
Qed.

Lemma checking_pem e : pem_contract e -> pem_contract (Reference.checking e).
Proof. intros H ty der Hty. exact (H ty der Hty). Qed.

(** ** The certificate forge *)

(** C1, amended.  Let key generation, the serial number, the signing of
    the template by [x509.CreateCertificate] (which crypto/x509 refuses for
    some templates, a DNS name that is not an IA5String among them) and the
    marshalling of the key succeed.  For [0 <= hoursValid <= 2562047] (so
    that [hoursValid * time.Hour] fits an [int64]) [createCert] returns, and
    - the template it signs has organization [My Corp], exactly the
      requested DNS names, [NotBefore] the first clock reading, [NotAfter]
      the second clock reading plus [hoursValid] hours, hence
      [NotBefore <= now <= NotAfter] for every instant [now] between the two
      readings; key usage digital signature, extended key usage server and
      client authentication, [BasicConstraintsValid] set and [IsCA] not;
    - the PEM block returned holds the DER certificate signed with the CA
      pair; by the contract of crypto/x509 its issuer is the subject of the
      CA, its DNS names are the requested ones, and its validity, held to
      the second, starts no later than [now] and, from one hour of validity
      on, ends no earlier. *)
Theorem createCert_issues env dnsNames parent parentKey hoursValid s
    k serial der privBytes :
  0 <= hoursValid <= maxHours ->
  x509_contract env ->
  pem_contract env ->
  generateKey env (draws s) = Ok k ->
  randInt env (S (draws s)) serialNumberLimit = Ok serial ->
  createCertificate env (S (S (draws s)))
    (forged_template serial dnsNames (clock env (ticks s))
       (clock env (S (ticks s))) hoursValid)
    parent (PublicKey k) parentKey = Ok der ->
  marshalPKCS8PrivateKey env k = Ok privBytes ->
  let r := createCert env dnsNames parent parentKey hoursValid s in
  let t1 := clock env (ticks s) in
  let t2 := clock env (S (ticks s)) in
  exists pemCert pemKey template cert,
    outcome r = Done (pemCert, pemKey) /\
    In (EvCreateCertificate template parent (PublicKey k) parentKey (Ok der))
       (events r) /\
    templates (events r) = [template] /\
    SerialNumber template = serial /\
    Organization (Subject template) = ["My Corp"] /\
    DNSNames template = dnsNames /\
    NotBefore template = t1 /\
    NotAfter template = t2 + hoursValid * Hour /\
    (forall now, t1 <= now <= t2 ->
       NotBefore template <= now <= NotAfter template) /\
    KeyUsage template = KeyUsageDigitalSignature /\
    ExtKeyUsages template = [ExtKeyUsageServerAuth; ExtKeyUsageClientAuth] /\
    BasicConstraintsValid template = true /\
    IsCA template = false /\
    fst (pemDecode env pemCert)
      = Some {| Type_ := "CERTIFICATE"; Headers := []; Bytes := der |} /\
    parseCertificate env der = Ok cert /\
    Issuer cert = Subject parent /\
    DNSNames cert = dnsNames /\
    (forall now, t1 <= now <= t2 ->
       NotBefore cert <= now /\ (1 <= hoursValid -> now <= NotAfter cert)).
Proof.
  intros Hh Hx Hp Hk Hs Hder Hm r t1 t2.
  fold t1 t2 in Hder.
  destruct (Hp "CERTIFICATE" der (or_introl eq_refl)) as (pemCert & Hec & Hdc).
  destruct (Hx _ _ _ _ _ _ _ _ _ _ Hder)
    as (cert & Hparse & Hi & _ & Hdns & Hnb & Hna).
  assert (Hdur : Duration_mul hoursValid Hour = hoursValid * Hour).
  { apply Duration_mul_Hour. unfold maxHours in *. lia. }
  assert (Hpos : 0 <= hoursValid * Hour).
  { change Hour with 3600000000000. lia. }
  exists pemCert,
    (default "" (pemEncodeToMemory env
       {| Type_ := "PRIVATE KEY"; Headers := []; Bytes := privBytes |})),
    (forged_template serial dnsNames t1 t2 hoursValid), cert.
  unfold forged_template in *.
  subst r. run_program. rewrite Hk. cbn. rewrite Hs. cbn.
  fold t1 t2. rewrite Hder. cbn. rewrite Hec. rewrite Hm. cbn.
  cbn in Hdns, Hnb, Hna.
  repeat match goal with |- _ /\ _ => split end; try reflexivity.
  - auto 10.
  - unfold Time_Add. rewrite Hdur. reflexivity.
  - unfold Time_Add. rewrite Hdur. intros now Hn. lia.
  - rewrite Hdc. reflexivity.
  - exact Hparse.
  - exact Hi.
  - exact Hdns.
  - intros now Hn. rewrite Hnb, Hna. unfold Time_Add.
    rewrite Hdur. split.
    + pose proof (truncSecond_le t1). lia.
    + intros H1. pose proof (truncSecond_gt (t2 + hoursValid * Hour)).
      change Hour with (3600 * Second) in *. change Second with 1000000000 in *.
      lia.
Qed.

Lemma createCert_issues_witness :
  0 <= 240 <= maxHours /\
  exists pemCert pemKey template cert,
    outcome (createCert Reference.strict ["example.com"] Reference.ca
               Reference.caPrivateKey 240 Reference.s0) = Done (pemCert, pemKey) /\
    DNSNames template = ["example.com"] /\
    NotBefore template = 1700000000123456789 /\
    NotAfter template = 1700000000123457789 + 240 * Hour /\
    Issuer cert = Reference.caName /\
    DNSNames cert = ["example.com"].
Proof.
  split; [unfold maxHours; lia|].
  edestruct (createCert_issues Reference.strict ["example.com"] Reference.ca
               Reference.caPrivateKey 240 Reference.s0
               {| PublicKey := {| X := 11; Y := 22 |}; D := 33 |} 12346)
    as (pemCert & pemKey & template & cert & Ho & _ & _ & _ & _ & Hd & Hb
        & Ha & _ & _ & _ & _ & _ & _ & _ & Hi & Hn & _).
  - unfold maxHours; lia.
  - apply checking_x509, reference_x509.
  - apply checking_pem, reference_pem.
  - reflexivity.
  - reflexivity.
  - vm_compute. reflexivity.
  - reflexivity.
  - exists pemCert, pemKey, template, cert.
    repeat split; assumption.
Defined.

(** C1 as stated fails, in three ways.  With [hoursValid = -1] the template
    ends before it starts, and so does the certificate signed from it, so
    that no instant lies within the validity.  The clock is read once for
    each bound, so that [NotAfter] of the template is not its [NotBefore]
    plus the validity.  And not every host name can be certified: where
    the signing refuses a name that is not an IA5String, as crypto/x509
    does, the CA pair that signs for [example.com] does not sign for the
    name [e_acute], and [createCert] ends in [log.Fatal] instead of
    returning. *)
Lemma createCert_validity_counterexample :
  (exists pems template der cert,
    outcome (createCert Reference.env ["example.com"] Reference.ca
               Reference.caPrivateKey (-1) Reference.s0) = Done pems /\
    templates (events (createCert Reference.env ["example.com"] Reference.ca
                         Reference.caPrivateKey (-1) Reference.s0)) = [template] /\
    NotAfter template < NotBefore template /\
    NotAfter template <> Time_Add (NotBefore template) (Duration_mul (-1) Hour) /\
    signed (events (createCert Reference.env ["example.com"] Reference.ca
                      Reference.caPrivateKey (-1) Reference.s0)) = [der] /\
    parseCertificate Reference.env der = Ok cert /\
    NotAfter cert < NotBefore cert) /\
  (exists pems,
    outcome (createCert Reference.strict ["example.com"] Reference.ca
               Reference.caPrivateKey 240 Reference.s0) = Done pems) /\
  outcome (createCert Reference.strict [Reference.e_acute] Reference.ca
             Reference.caPrivateKey 240 Reference.s0) = Fatal.
Proof.
  split; [|split].
  - do 4 eexists. split; [vm_compute; reflexivity|].
    split; [vm_compute; reflexivity|].
    split; [vm_compute; reflexivity|].
    split; [vm_compute; discriminate|].
    split; [vm_compute; reflexivity|].
    split; vm_compute; reflexivity.
  - eexists. vm_compute. reflexivity.
  - vm_compute. reflexivity.
Qed.

(** The run of [createCert] when it returns. *)
Lemma createCert_Done env dnsNames parent parentKey hoursValid s pems :
  outcome (createCert env dnsNames parent parentKey hoursValid s) = Done pems ->
  exists k serial template der pemCert privBytes,
    events (createCert env dnsNames parent parentKey hoursValid s) =
      [EvLog "creating cert for domains:";
       EvGenerateKey (Ok k);
       EvRandInt serialNumberLimit (Ok serial);
       EvNow (clock env (ticks s));
       EvNow (clock env (S (ticks s)));
       EvCreateCertificate template parent (PublicKey k) parentKey (Ok der)] /\
    pemEncodeToMemory env
      {| Type_ := "CERTIFICATE"; Headers := []; Bytes := der |} = Some pemCert /\
    marshalPKCS8PrivateKey env k = Ok privBytes /\
    pems = (pemCert,
            default "" (pemEncodeToMemory env
              {| Type_ := "PRIVATE KEY"; Headers := []; Bytes := privBytes |})).
Proof.
  run_program. repeat (answer; cbn).
  all: intros Ho; try discriminate Ho.
  injection Ho as <-. do 6 eexists. repeat split; eassumption.
Qed.

(** C9.  Let [createCert] return the PEM pair of a certificate whose DER
    form parses as [issued].  Reading the pair back with [loadX509KeyPair]
    (PEM decoding followed by parsing) succeeds and gives a certificate
    with the serial number, DNS names, [NotBefore] and [NotAfter] of
    [issued], together with the key that was generated. *)
Theorem createCert_pem_round_trip env dnsNames parent parentKey hoursValid s s'
    pems template parent' pub priv der issued certFile keyFile :
  pem_contract env ->
  pkcs8_contract env ->
  outcome (createCert env dnsNames parent parentKey hoursValid s) = Done pems ->
  In (EvCreateCertificate template parent' pub priv (Ok der))
     (events (createCert env dnsNames parent parentKey hoursValid s)) ->
  parseCertificate env der = Ok issued ->
  stored env certFile keyFile pems ->
  exists cert k,
    outcome (loadX509KeyPair env certFile keyFile s') = Done (Ok (cert, ECDSAKey k)) /\
    In (EvGenerateKey (Ok k))
       (events (createCert env dnsNames parent parentKey hoursValid s)) /\
    SerialNumber cert = SerialNumber issued /\
    DNSNames cert = DNSNames issued /\
    NotBefore cert = NotBefore issued /\
    NotAfter cert = NotAfter issued.
Proof.
  intros Hp Hk Ho Hin Hparse [Hcf Hkf].
  destruct (createCert_Done _ _ _ _ _ _ _ Ho)
    as (k & serial & template' & der' & pemCert & privBytes & Hev & Hec & Hm & ->).
  rewrite Hev in Hin |- *. in_events Hin. injection Hin as _ _ _ _ ->.
  destruct (Hp "CERTIFICATE" der (or_introl eq_refl)) as (out & He & Hd).
  rewrite Hec in He. injection He as <-.
  destruct (Hp "PRIVATE KEY" privBytes (or_intror eq_refl)) as (out' & He' & Hd').
  cbn in Hcf, Hkf. rewrite He' in Hkf. cbn in Hkf.
  exists issued, k.
  run_program. rewrite Hcf, Hkf. cbn. rewrite Hd. cbn. rewrite Hparse.
  rewrite Hd'. cbn. rewrite (Hk _ _ Hm). cbn. repeat split; auto 10.
Qed.

Lemma createCert_pem_round_trip_witness :
  exists cert k,
    outcome (loadX509KeyPair (Reference.env_on leaf_files []) "leaf.pem" "leaf.key"
               Reference.s0) = Done (Ok (cert, ECDSAKey k)) /\
    SerialNumber cert = 12346 /\
    DNSNames cert = ["example.com"] /\
    NotBefore cert = 1700000000 * Second /\
    NotAfter cert = 1700864000 * Second.
Proof.
  edestruct (createCert_pem_round_trip (Reference.env_on leaf_files [])
               ["example.com"] Reference.ca Reference.caPrivateKey 240
               Reference.s0 Reference.s0 leaf_pems)
    with (certFile := "leaf.pem") (keyFile := "leaf.key")
    as (cert & k & Hl & _ & Hs & Hd & Hb & Ha).
  - apply reference_pem.
  - apply reference_pkcs8.
  - vm_compute. reflexivity.
  - vm_compute. do 5 right. left. reflexivity.
  - vm_compute. reflexivity.
  - split; vm_compute; reflexivity.
  - exists cert, k. repeat split; assumption.
Defined.

(** ** The CA loader *)

(** C8 fails on the code.  When the certificate file can be read but holds
    no PEM block, [pem.Decode] returns a nil block and [loadX509KeyPair]
    dereferences it: the loader panics instead of returning an error, and
    so does [createForwardProxy] at start-up. *)
Theorem loadX509KeyPair_no_PEM_block_panics env certFile keyFile s cf kf :
  readFile env certFile = Ok cf ->
  readFile env keyFile = Ok kf ->
  fst (pemDecode env cf) = None ->
  outcome (loadX509KeyPair env certFile keyFile s) = Panic /\
  outcome (createForwardProxy env certFile keyFile s) = Panic.
Proof.
  intros Hc Hk Hd. run_program. rewrite Hc, Hk. cbn.
  destruct (pemDecode env cf) as [blk rest]. cbn in Hd. subst blk.
  split; reflexivity.
Qed.

Lemma loadX509KeyPair_no_PEM_block_panics_witness :
  outcome (loadX509KeyPair (Reference.env_on junk_files []) "ca.pem" "ca.key"
             Reference.s0) = Panic /\
  outcome (createForwardProxy (Reference.env_on junk_files []) "ca.pem" "ca.key"
             Reference.s0) = Panic.
Proof.
  apply (loadX509KeyPair_no_PEM_block_panics (Reference.env_on junk_files [])
           "ca.pem" "ca.key" Reference.s0 "hello" "hello"); reflexivity.
Defined.

(** The failures the loader does report: a file that cannot be read, and a
    block that does not parse, come back as the error of the failing call. *)
Lemma loadX509KeyPair_reports env certFile keyFile s :
  (forall e, readFile env certFile = Err e ->
     outcome (loadX509KeyPair env certFile keyFile s) = Done (Err e)) /\
  (forall cf e, readFile env certFile = Ok cf -> readFile env keyFile = Err e ->
     outcome (loadX509KeyPair env certFile keyFile s) = Done (Err e)) /\
  (forall cf kf blk e,
     readFile env certFile = Ok cf -> readFile env keyFile = Ok kf ->
     fst (pemDecode env cf) = Some blk -> parseCertificate env (Bytes blk) = Err e ->
     outcome (loadX509KeyPair env certFile keyFile s) = Done (Err e)).
Proof.
  split; [|split].
  - intros e H. run_program. rewrite H. reflexivity.
  - intros cf e H1 H2. run_program. rewrite H1, H2. reflexivity.
  - intros cf kf blk e H1 H2 H3 H4. run_program. rewrite H1, H2. cbn.
    destruct (pemDecode env cf) as [b rest]. cbn in H3. subst b.
    rewrite H4. reflexivity.
Qed.

(** A loader error at start-up ends [main] in [log.Fatal] before the
    listener is started. *)
Lemma main_bad_CA_exits env addr certFile keyFile s e :
  outcome (loadX509KeyPair env certFile keyFile s) = Done (Err e) ->
  outcome (main env addr certFile keyFile s) = Fatal /\
  events (main env addr certFile keyFile s)
    = events (loadX509KeyPair env certFile keyFile s)
      ++ [EvFatal "Error loading CA certificate/key:"].
Proof.
  intros Ho.
  destruct (loadX509KeyPair env certFile keyFile s) as [o s1 evs] eqn:E.
  cbn in Ho. subst o.
  assert (Ep : createForwardProxy env certFile keyFile s
               = mkRun Fatal s1 (evs ++ [EvFatal "Error loading CA certificate/key:"])).
  { unfold createForwardProxy. rewrite (bind_Done _ _ _ _ _ _ E). reflexivity. }
  unfold main. rewrite (bind_Fatal _ _ _ _ _ Ep). split; reflexivity.
Qed.

(** ** The front controller *)

(** C5.  A request whose method is not CONNECT is answered with 405 Method
    Not Allowed and nothing else happens: the one effect of the handler is
    that response, so the upstream target is never dialled and the client
    connection never hijacked. *)
Theorem ServeHTTP_rejects_other_methods env p w req s :
  Method req <> MethodConnect ->
  ServeHTTP env p w req s =
    mkRun (Done tt) s
      [EvHttpError w "this proxy only supports CONNECT" StatusMethodNotAllowed] /\
  Forall (fun e => ~ is_dial e /\ ~ is_hijack e) (events (ServeHTTP env p w req s)).
Proof.
  intros Hm. unfold ServeHTTP.
  destruct (decide (Method req = MethodConnect)) as [E|_]; [contradiction|].
  split; [reflexivity|].
  repeat constructor; simpl; tauto.
Qed.

Lemma ServeHTTP_rejects_other_methods_witness :
  ServeHTTP Reference.env Reference.proxy 0%nat
    {| Method := "GET"; Host := "example.com"; RemoteAddr := "127.0.0.1:50000" |}
    Reference.s0 =
    mkRun (Done tt) Reference.s0
      [EvHttpError 0%nat "this proxy only supports CONNECT" 405] /\
  Forall (fun e => ~ is_dial e /\ ~ is_hijack e)
    (events (ServeHTTP Reference.env Reference.proxy 0%nat
       {| Method := "GET"; Host := "example.com"; RemoteAddr := "127.0.0.1:50000" |}
       Reference.s0)).
Proof.
  apply (ServeHTTP_rejects_other_methods Reference.env Reference.proxy 0%nat
           {| Method := "GET"; Host := "example.com";
              RemoteAddr := "127.0.0.1:50000" |} Reference.s0).
  simpl. discriminate.
Defined.

(** The run of the handler when the dial fails. *)
Lemma ServeHTTP_dial_failure env p w req s err :
  Method req = MethodConnect ->
  dial env "tcp" (Host req) = Err err ->
  ServeHTTP env p w req s = mkRun (Done tt) s (dial_failure_events w req err).
Proof.
  intros Hm Hd. unfold ServeHTTP.
  destruct (decide (Method req = MethodConnect)); [|contradiction].
  run_program. rewrite Hd. reflexivity.
Qed.

(** C6.  When the upstream dial of a CONNECT request fails, the handler
    answers 503 Service Unavailable with the text of the dial error as body
    and returns; it performs no hijack (the response is its last effect),
    and the accept loop goes on with the connections that follow. *)
Theorem proxyConnect_dial_failure env p w req s err rest :
  Method req = MethodConnect ->
  dial env "tcp" (Host req) = Err err ->
  ServeHTTP env p w req s = mkRun (Done tt) s (dial_failure_events w req err) /\
  Forall (fun e => ~ is_hijack e) (events (ServeHTTP env p w req s)) /\
  let r := acceptLoop (ServeHTTP env p) ((w, req) :: rest) s in
  let r' := acceptLoop (ServeHTTP env p) rest s in
  outcome r = outcome r' /\ final r = final r' /\
  events r = dial_failure_events w req err ++ events r'.
Proof.
  intros Hm Hd.
  pose proof (ServeHTTP_dial_failure env p w req s err Hm Hd) as E.
  split; [exact E|]. split.
  - rewrite E. repeat constructor; simpl; tauto.
  - cbn [acceptLoop]. rewrite (bind_Done _ _ _ _ _ _ E). cbn. auto.
Qed.

Lemma proxyConnect_dial_failure_witness :
  let req := Reference.connectTo "127.0.0.1:1" in
  let err := "dial tcp 127.0.0.1:1: connect: connection refused" in
  ServeHTTP Reference.env Reference.proxy 0%nat req Reference.s0 =
    mkRun (Done tt) Reference.s0 (dial_failure_events 0%nat req err) /\
  Forall (fun e => ~ is_hijack e)
    (events (ServeHTTP Reference.env Reference.proxy 0%nat req Reference.s0)) /\
  let r := acceptLoop (ServeHTTP Reference.env Reference.proxy)
             [(0%nat, req); (0%nat, req)] Reference.s0 in
  let r' := acceptLoop (ServeHTTP Reference.env Reference.proxy)
              [(0%nat, req)] Reference.s0 in
  outcome r = outcome r' /\ final r = final r' /\
  events r = dial_failure_events 0%nat req err ++ events r'.
Proof.
  apply (proxyConnect_dial_failure Reference.env Reference.proxy 0%nat
           (Reference.connectTo "127.0.0.1:1") Reference.s0
           "dial tcp 127.0.0.1:1: connect: connection refused"
           [(0%nat, Reference.connectTo "127.0.0.1:1")]).
  - reflexivity.
  - reflexivity.
Defined.

(** ** Order of the steps of a tunnel *)

Lemma each_after_split Q evs : forall seen pre e post,
  each_after Q seen evs -> evs = pre ++ e :: post -> Q (seen ++ pre) e.
Proof.
  induction evs as [|x evs IH]; intros seen pre e post H Heq.
  - destruct pre; discriminate Heq.
  - destruct H as [Hx Hrest]. destruct pre as [|y pre]; cbn in Heq.
    + injection Heq as -> ->. rewrite app_nil_r. exact Hx.
    + injection Heq as -> ->.
      specialize (IH (seen ++ [y]) pre e post Hrest eq_refl).
      rewrite <- app_assoc in IH. exact IH.
Qed.

Ltac found :=
  repeat first [ apply Exists_cons_hd; cbn; solve [auto]
               | apply Exists_cons_tl ].

Lemma proxyConnect_tunnel_order env p w req s :
  each_after (tunnel_order env w req) [] (events (proxyConnect env p w req s)).
Proof.
  run_program. repeat (answer; cbn).
  all: unfold tunnel_order.
  all: repeat match goal with |- _ /\ _ => split end; try exact I.
  all: intros c' x y E; try discriminate E.
  all: injection E as <- <- <-.
  all: repeat match goal with |- _ /\ _ => split end;
    try reflexivity; try assumption; found.
Qed.

(** C4.  In every run of [proxyConnect], what is written is the synthetic
    200 response, on the hijacked client connection, and only after the dial
    of the request's target has succeeded; and the TLS handshake is on that
    same client connection, only after the 200 response has been written on
    it in full. *)
Theorem proxyConnect_ordering env p w req s pre e post :
  events (proxyConnect env p w req s) = pre ++ e :: post ->
  (forall c b r, e = EvWrite c b r ->
     hijack env w = Ok c /\ b = status200 /\ Exists (dialled (Host req)) pre) /\
  (forall c cfg r, e = EvHandshake c cfg r ->
     hijack env w = Ok c /\ Exists (status_written_on c) pre).
Proof.
  intros Heq.
  exact (each_after_split _ _ [] pre e post
           (proxyConnect_tunnel_order env p w req s) Heq).
Qed.

Lemma tunnel_ends_in_handshake :
  exists cfg,
    tunnel_events = firstn 10 tunnel_events ++ [EvHandshake 100%nat cfg None].
Proof. vm_compute. eexists. reflexivity. Qed.

Lemma proxyConnect_ordering_witness :
  hijack Reference.env 0%nat = Ok 100%nat /\
  Exists (status_written_on 100%nat) (firstn 10 tunnel_events) /\
  Exists (dialled "example.com:443") (firstn 9 tunnel_events).
Proof.
  destruct tunnel_ends_in_handshake as [cfg E].
  destruct (proxyConnect_ordering Reference.env Reference.proxy 0%nat
              (Reference.connectTo "example.com:443") Reference.s0
              (firstn 10 tunnel_events) (EvHandshake 100%nat cfg None) [] E)
    as [_ Hh].
  destruct (Hh _ _ _ eq_refl) as [Hj Hw].
  split; [exact Hj|]. split; [exact Hw|].
  edestruct (proxyConnect_ordering Reference.env Reference.proxy 0%nat
               (Reference.connectTo "example.com:443") Reference.s0
               (firstn 9 tunnel_events)) as [Hwr _].
  - vm_compute. reflexivity.
  - destruct (Hwr _ _ _ eq_refl) as (_ & _ & Hd). exact Hd.
Defined.

(** ** The synthetic response *)

(** C7, amended.  In every run of [proxyConnect] that reaches the TLS
    handshake, exactly one payload has been written, on the hijacked client
    connection, and it is the literal [HTTP/1.1 200 OK\r\n\r\n]. *)
Theorem proxyConnect_status_line env p w req s c cfg r :
  In (EvHandshake c cfg r) (events (proxyConnect env p w req s)) ->
  written (events (proxyConnect env p w req s)) = [(c, status200)].
Proof.
  run_program. repeat (answer; cbn).
  all: intros H; in_events H.
  all: injection H as -> _ _; reflexivity.
Qed.

Lemma proxyConnect_status_line_witness :
  written tunnel_events = [(100%nat, status200)].
Proof.
  destruct tunnel_handshake as [cfg H].
  exact (proxyConnect_status_line Reference.env Reference.proxy 0%nat
           (Reference.connectTo "example.com:443") Reference.s0
           100%nat cfg None H).
Defined.

(** C7 as stated fails: the run of a CONNECT to example.com:443 reaches the
    handshake, and what it wrote before is not the
    [200 Connection Established] line. *)
Lemma proxyConnect_not_connection_established :
  ~ answers_before_handshake connectionEstablished tunnel_events.
Proof.
  intros H. destruct tunnel_handshake as [cfg Hin].
  specialize (H _ _ _ Hin). vm_compute in H. discriminate H.
Qed.

(** ** After the handshake *)

(** C3, amended.  When the handshake of a tunnel succeeds, [proxyConnect]
    returns at once: the handshake is its last effect.  Nothing is read from
    either connection, nothing is closed, and the one write and the
    handshake are on the hijacked client connection; the upstream connection
    is not used after the dial. *)
Theorem proxyConnect_no_relay env p w req s c cfg :
  In (EvHandshake c cfg None) (events (proxyConnect env p w req s)) ->
  outcome (proxyConnect env p w req s) = Done tt /\
  List.last (events (proxyConnect env p w req s)) no_event
    = EvHandshake c cfg None /\
  Forall (leaves_alone c) (events (proxyConnect env p w req s)).
Proof.
  run_program. repeat (answer; cbn).
  all: intros H; in_events H.
  all: injection H as -> ->.
  all: split; [reflexivity | split; [reflexivity | all_events]].
Qed.

Lemma proxyConnect_no_relay_witness :
  outcome (proxyConnect Reference.env Reference.proxy 0%nat
             (Reference.connectTo "example.com:443") Reference.s0) = Done tt /\
  (exists cfg, List.last tunnel_events no_event = EvHandshake 100%nat cfg None) /\
  Forall (leaves_alone 100%nat) tunnel_events.
Proof.
  destruct tunnel_handshake as [cfg H].
  destruct (proxyConnect_no_relay Reference.env Reference.proxy 0%nat
              (Reference.connectTo "example.com:443") Reference.s0
              100%nat cfg H) as (Ho & Hl & Hf).
  split; [exact Ho | split; [exists cfg; exact Hl | exact Hf]].
Defined.

(** C3 as stated fails: in the run of a CONNECT to example.com:443 the dial
    and the handshake succeed and no relay follows. *)
Lemma proxyConnect_tunnel_not_relayed : ~ tunnel_relayed tunnel_events.
Proof.
  intros H. destruct tunnel_handshake as [cfg Hin].
  assert (Hd : In (EvDial "tcp" "example.com:443" (Ok 7%nat)) tunnel_events).
  { vm_compute. right. left. reflexivity. }
  destruct (H _ _ _ _ Hd Hin) as (_ & _ & Hc & _).
  vm_compute in Hc. in_events Hc.
Qed.

(** ** Errors and the life of the process *)

Lemma proxyConnect_failure_is_fatal env p w req s :
  Exists post_dial_failure (events (proxyConnect env p w req s)) \/
  ((exists tc, dial env "tcp" (Host req) = Ok tc) /\ hijacker env w = false) ->
  exists evs, proxyConnect env p w req s = mkRun Fatal (final (proxyConnect env p w req s)) evs
    /\ Forall (fun e => ~ is_http_error e /\ ~ is_close e) evs.
Proof.
  run_program. repeat (answer; cbn).
  all: intros [H|[[tc Hd] Hh]]; try discriminate; try exists_event H.
  all: try (rewrite Hh in *; simpl in *; discriminate).
  all: eexists; split; [reflexivity | all_events].
Qed.

(** C2, amended.  Of the errors of a connection only the dial failure is
    scoped to it: the handler answers 503 and returns.  When the response
    writer cannot be hijacked, or the hijack, the key generation, the serial
    number, the signing, the write of the status line or the TLS handshake
    fails, the handler ends in [log.Fatal]: the process exits, no HTTP error
    response is written and no connection is closed, and the accept loop
    serves none of the connections that follow. *)
Theorem proxyConnect_failure_exits env p w req s rest :
  Method req = MethodConnect ->
  (forall err, dial env "tcp" (Host req) = Err err ->
     outcome (ServeHTTP env p w req s) = Done tt /\
     In (EvHttpError w err StatusServiceUnavailable)
        (events (ServeHTTP env p w req s))) /\
  (Exists post_dial_failure (events (ServeHTTP env p w req s)) \/
   ((exists tc, dial env "tcp" (Host req) = Ok tc) /\ hijacker env w = false) ->
   outcome (ServeHTTP env p w req s) = Fatal /\
   Forall (fun e => ~ is_http_error e /\ ~ is_close e)
     (events (ServeHTTP env p w req s)) /\
   acceptLoop (ServeHTTP env p) ((w, req) :: rest) s = ServeHTTP env p w req s).
Proof.
  intros Hm. split.
  - intros err Hd. rewrite (ServeHTTP_dial_failure env p w req s err Hm Hd).
    split; [reflexivity | simpl; auto].
  - assert (Es : ServeHTTP env p w req s = proxyConnect env p w req s).
    { unfold ServeHTTP.
      destruct (decide (Method req = MethodConnect)); [reflexivity|contradiction]. }
    rewrite Es. intros Hf.
    destruct (proxyConnect_failure_is_fatal env p w req s Hf) as (evs & E & Hall).
    split; [|split].
    + rewrite E. reflexivity.
    + rewrite E. exact Hall.
    + cbn [acceptLoop]. rewrite <- Es in E at 1.
      rewrite (bind_Fatal _ _ _ _ _ E). rewrite <- E. exact Es.
Qed.

Lemma proxyConnect_failure_exits_witness :
  outcome failed_hijack = Fatal /\
  Forall (fun e => ~ is_http_error e /\ ~ is_close e) (events failed_hijack) /\
  acceptLoop (ServeHTTP Reference.env Reference.proxy)
    [(1%nat, Reference.connectTo "example.com:443");
     (0%nat, Reference.connectTo "example.com:443")] Reference.s0
  = failed_hijack.
Proof.
  apply (proxyConnect_failure_exits Reference.env Reference.proxy 1%nat
           (Reference.connectTo "example.com:443") Reference.s0
           [(0%nat, Reference.connectTo "example.com:443")]).
  - reflexivity.
  - left. vm_compute. do 2 apply Exists_cons_tl. apply Exists_cons_hd. exact I.
Defined.

(** C2 as stated fails: a failed hijack is a failure after the dial, the
    handler does not return from it, and no 5xx response is written. *)
Lemma proxyConnect_hijack_failure_not_scoped :
  Exists post_dial_failure (events failed_hijack) /\
  outcome failed_hijack <> Done tt /\
  ~ Exists is_server_error (events failed_hijack).
Proof.
  split; [|split].
  - vm_compute. do 2 apply Exists_cons_tl. apply Exists_cons_hd. exact I.
  - vm_compute. discriminate.
  - intros H. vm_compute in H. exists_event H.
Qed.

(** ** The validity window of a forged certificate *)




(** ** The single-connection listener *)

Lemma calls_drained cs :
  exists rs,
    calls cs {| conn := None; mu := false |}
      = Some (rs, {| conn := None; mu := false |}) /\
    accepted rs = repeat (Err ErrClosedPipe) (count_accepts cs).
Proof.
  induction cs as [|[] cs (rs & E & Ha)]; cbn.
  - exists []. split; reflexivity.
  - unfold mu_Unlock. cbn. rewrite E. eexists. split; [reflexivity|]. cbn. rewrite Ha. reflexivity.
  - rewrite E. eexists. split; [reflexivity|]. exact Ha.
  - rewrite E. eexists. split; [reflexivity|]. exact Ha.
Qed.

(** X1.  Whatever calls are made, one after the other, on a listener that
    holds connection [c] with its mutex free: no call waits on the mutex,
    the mutex is free again at the end, the first [Accept] is given [c], and
    every later [Accept] fails with [io.ErrClosedPipe]; the connection stays
    in the listener only if [Accept] was never called. *)
Theorem singleConnListener_accepts_once cs c :
  exists rs l',
    calls cs {| conn := Some c; mu := false |} = Some (rs, l') /\
    mu l' = false /\
    accepted rs =
      match count_accepts cs with
      | O => []
      | S n => Ok c :: repeat (Err ErrClosedPipe) n
      end /\
    conn l' = match count_accepts cs with O => Some c | S _ => None end.
Proof.
  induction cs as [|[] cs (rs & l' & E & Hm & Ha & Hc)]; cbn.
  - do 2 eexists. repeat split.
  - destruct (calls_drained cs) as (rs0 & E0 & Ha0).
    unfold mu_Unlock. cbn. rewrite E0.
    do 2 eexists. split; [reflexivity|]. cbn. rewrite Ha0. repeat split.
  - rewrite E. do 2 eexists. split; [reflexivity|]. repeat split; assumption.
  - rewrite E. do 2 eexists. split; [reflexivity|]. repeat split; assumption.
Qed.

(** ** More on the CA loader *)

(** X3.  When both files can be read, each holds a PEM block and the bytes
    of the two blocks parse, [loadX509KeyPair] returns the certificate and
    the key parsed from them.  Only the first block of each file counts,
    whatever its type and headers and whatever follows it, and the two file
    reads are the only effects. *)
Theorem loadX509KeyPair_loads env certFile keyFile s
    cf kf certBlock certRest keyBlock keyRest cert key :
  readFile env certFile = Ok cf ->
  readFile env keyFile = Ok kf ->
  pemDecode env cf = (Some certBlock, certRest) ->
  parseCertificate env (Bytes certBlock) = Ok cert ->
  pemDecode env kf = (Some keyBlock, keyRest) ->
  parsePKCS8PrivateKey env (Bytes keyBlock) = Ok key ->
  loadX509KeyPair env certFile keyFile s =
    mkRun (Done (Ok (cert, key))) s
      [EvReadFile certFile (Ok cf); EvReadFile keyFile (Ok kf)].
Proof.
  intros Hc Hk Hdc Hpc Hdk Hpk. run_program.
  rewrite Hc, Hk. cbn. rewrite Hdc. cbn. rewrite Hpc, Hdk. cbn. rewrite Hpk.
  reflexivity.
Qed.

(** X4.  [loadX509KeyPair] never calls [log.Fatal].  It panics exactly when
    both files can be read and a PEM block is missing where it is used: in
    the certificate file, or in the key file once the certificate has
    parsed.  An unreadable key file is therefore reported as an error even
    when the certificate file holds no PEM block.  An error it returns is
    the error of the read or of the parse that failed. *)
Theorem loadX509KeyPair_outcomes env certFile keyFile s :
  outcome (loadX509KeyPair env certFile keyFile s) <> Fatal /\
  (outcome (loadX509KeyPair env certFile keyFile s) = Panic <->
   exists cf kf,
     readFile env certFile = Ok cf /\ readFile env keyFile = Ok kf /\
     (fst (pemDecode env cf) = None \/
      exists certBlock cert,
        fst (pemDecode env cf) = Some certBlock /\
        parseCertificate env (Bytes certBlock) = Ok cert /\
        fst (pemDecode env kf) = None)) /\
  (forall e, outcome (loadX509KeyPair env certFile keyFile s) = Done (Err e) ->
     readFile env certFile = Err e \/ readFile env keyFile = Err e \/
     (exists cf b, readFile env certFile = Ok cf /\
        fst (pemDecode env cf) = Some b /\ parseCertificate env (Bytes b) = Err e) \/
     (exists kf b, readFile env keyFile = Ok kf /\
        fst (pemDecode env kf) = Some b /\ parsePKCS8PrivateKey env (Bytes b) = Err e)).
Proof.
  run_program. repeat (answer; cbn).
  all: split; [discriminate|].
  all: split;
    [ split;
      [ intros H; try discriminate H; do 2 eexists; repeat split; eauto;
        match goal with
        | E : pemDecode _ _ = _ |- _ => rewrite E; cbn; eauto 10
        end
      | intros (cf & kf & H1 & H2 & H3); try congruence;
        simplify_eq; destruct H3 as [H3|(cb & c & H3 & H4 & H5)]; cbn in *;
        repeat match goal with
               | E : pemDecode _ _ = _ |- _ => rewrite E in *; cbn in *
               end; congruence ]
    | intros err H; try discriminate H; injection H as <-; eauto 10 ].
  all: try match goal with
           | P : parsePKCS8PrivateKey _ (Bytes ?b) = Err _,
             E : pemDecode _ ?kf = (Some ?b, _) |- _ =>
               do 3 right; exists kf, b; rewrite E; auto
           end.
  all: try match goal with
           | P : parseCertificate _ (Bytes ?b) = Err _,
             E : pemDecode _ ?cf = (Some ?b, _) |- _ =>
               do 2 right; left; exists cf, b; rewrite E; auto
           end.
  all: match goal with
       | P : parseCertificate _ (Bytes ?b) = Ok ?c,
         E : pemDecode _ ?cf = (Some ?b, _) |- _ =>
           right; exists b, c; rewrite E; auto
       end.
Qed.

Lemma loadX509KeyPair_loads_witness :
  loadX509KeyPair (Reference.env_on odd_files []) "odd.pem" "odd.key" Reference.s0 =
    mkRun (Done (Ok (Reference.ca, Reference.caPrivateKey))) Reference.s0
      [EvReadFile "odd.pem"
         (Ok (Reference.header "PRIVATE KEY" +:+ Reference.marshal Reference.ca));
       EvReadFile "odd.key"
         (Ok (Reference.header "CERTIFICATE"
              +:+ Reference.marshal {| PublicKey := {| X := 5; Y := 6 |}; D := 7 |}))].
Proof.
  apply (loadX509KeyPair_loads (Reference.env_on odd_files []) "odd.pem" "odd.key"
           Reference.s0 _ _
           {| Type_ := "PRIVATE KEY"; Headers := [];
              Bytes := Reference.marshal Reference.ca |} ""
           {| Type_ := "CERTIFICATE"; Headers := [];
              Bytes := Reference.marshal
                         {| PublicKey := {| X := 5; Y := 6 |}; D := 7 |} |} "").
  all: vm_compute; reflexivity.
Defined.

(** ** Start-up and the life of [main] *)

Lemma bind_outcome {A B} (m : M A) (f : A -> M B) s :
  outcome (bind m f s) =
    match outcome (m s) with
    | Done a => outcome (f a (final (m s)))
    | Fatal => Fatal
    | Panic => Panic
    end.
Proof. unfold bind. destruct (m s) as [[a| |] s1 evs]; cbn; [destruct (f a s1)|..]; reflexivity. Qed.

Lemma bind_events {A B} (m : M A) (f : A -> M B) s :
  events (bind m f s) =
    events (m s) ++
    match outcome (m s) with
    | Done a => events (f a (final (m s)))
    | _ => []
    end.
Proof.
  unfold bind. destruct (m s) as [[a| |] s1 evs]; cbn;
    [destruct (f a s1)|..]; cbn; rewrite ?app_nil_r; reflexivity.
Qed.

Lemma ServeHTTP_never_panics env p w req s :
  outcome (ServeHTTP env p w req s) <> Panic.
Proof.
  unfold ServeHTTP. destruct (decide (Method req = MethodConnect)).
  - run_program. repeat (answer; cbn). all: discriminate.
  - discriminate.
Qed.

Lemma acceptLoop_never_panics handler conns s :
  (forall w req s, outcome (handler w req s) <> Panic) ->
  outcome (acceptLoop handler conns s) <> Panic.
Proof.
  intros Hh. revert s. induction conns as [|[w req] rest IH]; intros s; cbn.
  - discriminate.
  - rewrite bind_outcome. specialize (Hh w req s).
    destruct (outcome (handler w req s)); [apply IH | discriminate | contradiction].
Qed.

(** From here on [bind] is taken apart by its lemmas only. *)
#[local] Arguments bind : simpl never.


Lemma bind_final {A B} (m : M A) (f : A -> M B) s :
  final (bind m f s) =
    match outcome (m s) with
    | Done a => final (f a (final (m s)))
    | _ => final (m s)
    end.
Proof.
  unfold bind. destruct (m s) as [[a| |] s1 evs]; cbn;
    [destruct (f a s1)|..]; reflexivity.
Qed.

Lemma loadX509KeyPair_events env certFile keyFile s :
  Forall (fun e => is_read_file e \/ is_panic e)
    (events (loadX509KeyPair env certFile keyFile s)).
Proof.
  run_program. repeat (answer; cbn).
  all: repeat first [ apply Forall_nil | apply Forall_cons; [simpl; tauto | ] ].
Qed.

(** X6.  Once the loader has returned a pair, [main] logs twice, serves the
    inbound requests with a proxy that holds exactly that pair, whether or
    not the certificate is marked as a CA, and ends in [log.Fatal]: either
    in a handler, or, when all requests have been served, with the error
    of the listener. *)
Theorem main_serves env addr caCertFile caKeyFile s cert key :
  outcome (loadX509KeyPair env caCertFile caKeyFile s) = Done (Ok (cert, key)) ->
  let load := loadX509KeyPair env caCertFile caKeyFile s in
  let loop := acceptLoop (ServeHTTP env {| caCert := cert; caKey := key |})
                (inbound env) (final load) in
  outcome (main env addr caCertFile caKeyFile s) = Fatal /\
  events (main env addr caCertFile caKeyFile s) =
    events load
    ++ [EvLog "loaded CA certificate and key; IsCA=%v";
        EvLog "Starting proxy server on"]
    ++ events loop
    ++ match outcome loop with
       | Done _ => [EvFatal "ListenAndServe:"]
       | _ => []
       end.
Proof.
  intros Ho. cbv zeta.
  set (s1 := final (loadX509KeyPair env caCertFile caKeyFile s)).
  set (loop := acceptLoop _ _ s1).
  assert (Hn : outcome loop <> Panic).
  { apply acceptLoop_never_panics. intros. apply ServeHTTP_never_panics. }
  unfold main, createForwardProxy, http_ListenAndServe.
  rewrite !bind_outcome, !bind_events, !bind_outcome, !bind_final.
  rewrite Ho. cbn.
  repeat progress (rewrite ?bind_outcome, ?bind_events, ?bind_final; cbn).
  fold s1. fold loop.
  destruct (outcome loop); [| |contradiction]; cbn;
    rewrite <- ?app_assoc; cbn; rewrite ?app_nil_r; split; reflexivity.
Qed.

Lemma main_serves_witness :
  outcome (main (Reference.env_on leaf_files two_requests) "127.0.0.1:9999"
             "leaf.pem" "leaf.key" Reference.s0) = Fatal /\
  List.last (events (main (Reference.env_on leaf_files two_requests)
                       "127.0.0.1:9999" "leaf.pem" "leaf.key" Reference.s0))
    no_event = EvFatal "ListenAndServe:".
Proof.
  edestruct (main_serves (Reference.env_on leaf_files two_requests)
               "127.0.0.1:9999" "leaf.pem" "leaf.key" Reference.s0) as [Ho He].
  - vm_compute. reflexivity.
  - split; [exact Ho|]. rewrite He. vm_compute. reflexivity.
Defined.

(** X7.  Without a pair from the loader [main] serves nothing: all it does
    is read the two files and stop, in [log.Fatal] when the loader returned
    an error and in the loader's panic otherwise. *)
Theorem main_without_CA env addr caCertFile caKeyFile s :
  (forall pair,
     outcome (loadX509KeyPair env caCertFile caKeyFile s) <> Done (Ok pair)) ->
  Forall (fun e => is_read_file e \/ is_panic e \/
                   e = EvFatal "Error loading CA certificate/key:")
    (events (main env addr caCertFile caKeyFile s)) /\
  forall err,
    outcome (loadX509KeyPair env caCertFile caKeyFile s) = Done (Err err) ->
    outcome (main env addr caCertFile caKeyFile s) = Fatal.
Proof.
  intros Hno.
  pose proof (loadX509KeyPair_events env caCertFile caKeyFile s) as Hev.
  unfold main, createForwardProxy.
  rewrite !bind_outcome, !bind_events, !bind_outcome.
  destruct (outcome (loadX509KeyPair env caCertFile caKeyFile s)) as [[pair|e]| |];
    cbn.
  - destruct (Hno pair eq_refl).
  - split; [|reflexivity]. rewrite app_nil_r. apply Forall_app. split.
    + revert Hev. apply List.Forall_impl. cbn. tauto.
    + apply Forall_cons; [auto | apply Forall_nil].
  - split; [|discriminate]. rewrite !app_nil_r.
    revert Hev. apply List.Forall_impl. cbn. tauto.
  - split; [|discriminate]. rewrite !app_nil_r.
    revert Hev. apply List.Forall_impl. cbn. tauto.
Qed.

Lemma main_without_CA_witness :
  Forall (fun e => is_read_file e \/ is_panic e \/
                   e = EvFatal "Error loading CA certificate/key:")
    (events (main (Reference.env_on junk_files two_requests) "127.0.0.1:9999"
               "ca.pem" "ca.key" Reference.s0)) /\
  outcome (main (Reference.env_on Reference.no_files two_requests) "127.0.0.1:9999"
             "ca.pem" "ca.key" Reference.s0) = Fatal.
Proof.
  split.
  - apply (main_without_CA (Reference.env_on junk_files two_requests)).
    intros pair. vm_compute. discriminate.
  - eapply (main_without_CA (Reference.env_on Reference.no_files two_requests)).
    + intros pair. vm_compute. discriminate.
    + vm_compute. reflexivity.
Defined.

(** ** More on the certificate forge *)

(** X8.  What [createCert] returns belongs together: the certificate PEM
    encodes the one DER certificate signed in this call, which was signed
    with the CA pair for the public half of the key generated in this call,
    and the key PEM encodes the PKCS#8 form of that same key.  A call that
    returns has read the clock twice and drawn on the random source three
    times. *)
Theorem createCert_pair_belongs_together env dnsNames parent parentKey hoursValid s pems :
  outcome (createCert env dnsNames parent parentKey hoursValid s) = Done pems ->
  exists k template der privBytes,
    In (EvGenerateKey (Ok k))
       (events (createCert env dnsNames parent parentKey hoursValid s)) /\
    In (EvCreateCertificate template parent (PublicKey k) parentKey (Ok der))
       (events (createCert env dnsNames parent parentKey hoursValid s)) /\
    signed (events (createCert env dnsNames parent parentKey hoursValid s)) = [der] /\
    pemEncodeToMemory env
      {| Type_ := "CERTIFICATE"; Headers := []; Bytes := der |} = Some (fst pems) /\
    marshalPKCS8PrivateKey env k = Ok privBytes /\
    snd pems = default "" (pemEncodeToMemory env
                 {| Type_ := "PRIVATE KEY"; Headers := []; Bytes := privBytes |}) /\
    final (createCert env dnsNames parent parentKey hoursValid s)
      = {| ticks := S (S (ticks s)); draws := S (S (S (draws s))) |}.
Proof.
  run_program. repeat (answer; cbn).
  all: intros Ho; try discriminate Ho.
  injection Ho as <-. do 4 eexists.
  repeat match goal with |- _ /\ _ => split end; cbn; eauto 10.
Qed.

Lemma createCert_pair_belongs_together_witness :
  exists k template der privBytes,
    In (EvCreateCertificate template Reference.ca (PublicKey k)
          Reference.caPrivateKey (Ok der))
       (events (createCert Reference.env ["example.com"] Reference.ca
                  Reference.caPrivateKey 240 Reference.s0)) /\
    pemEncodeToMemory Reference.env
      {| Type_ := "CERTIFICATE"; Headers := []; Bytes := der |} = Some (fst leaf_pems) /\
    marshalPKCS8PrivateKey Reference.env k = Ok privBytes /\
    snd leaf_pems = default "" (pemEncodeToMemory Reference.env
                      {| Type_ := "PRIVATE KEY"; Headers := []; Bytes := privBytes |}).
Proof.
  destruct (createCert_pair_belongs_together Reference.env ["example.com"]
              Reference.ca Reference.caPrivateKey 240 Reference.s0 leaf_pems)
    as (k & template & der & privBytes & _ & Hc & _ & Hp & Hm & Hk & _).
  - vm_compute. reflexivity.
  - exists k, template, der, privBytes. repeat split; assumption.
Defined.

Lemma wrap64_range z : - 2 ^ 63 <= wrap64 z < 2 ^ 63.
Proof.
  unfold wrap64. pose proof (Z.mod_pos_bound (z + 2 ^ 63) (2 ^ 64)). lia.
Qed.

Lemma wrap64_once z : 2 ^ 63 <= z < 2 ^ 64 -> wrap64 z = z - 2 ^ 64.
Proof.
  intros H. unfold wrap64.
  replace (z + 2 ^ 63) with (z + 2 ^ 63 - 2 ^ 64 + 1 * 2 ^ 64) by lia.
  rewrite Z.mod_add by lia. rewrite Z.mod_small; lia.
Qed.

(** X9.  The validity asked for is an [int64] product and wraps around.
    Whatever [hoursValid], [NotAfter] of the template lies within 2^63
    nanoseconds of the clock reading taken for it; and for [hoursValid] from
    2562048 to 5124095 the product has wrapped once, so that the template
    ends before that reading: the certificate is expired when issued. *)
Theorem createCert_validity_wraps env dnsNames parent parentKey hoursValid s template :
  In template (templates (events (createCert env dnsNames parent parentKey hoursValid s))) ->
  - 2 ^ 63 <= NotAfter template - clock env (S (ticks s)) < 2 ^ 63 /\
  (maxHours < hoursValid <= 5124095 ->
   NotAfter template = clock env (S (ticks s)) + hoursValid * Hour - 2 ^ 64 /\
   NotAfter template < clock env (S (ticks s))).
Proof.
  run_program. repeat (answer; cbn).
  all: intros H; in_events H; subst template; cbn.
  all: unfold Time_Add, Duration_mul.
  all: pose proof (wrap64_range (hoursValid * Hour)) as Hr.
  all: split; [lia|]; intros Hh.
  all: rewrite wrap64_once;
    unfold maxHours in *; change Hour with 3600000000000 in *; lia.
Qed.

Lemma createCert_validity_wraps_witness :
  exists template,
    templates (events (createCert Reference.env ["example.com"] Reference.ca
                         Reference.caPrivateKey 2562048 Reference.s0)) = [template] /\
    NotAfter template = 1700000000123457789 + 2562048 * Hour - 2 ^ 64 /\
    NotAfter template < 1700000000123457789.
Proof.
  eexists. split; [vm_compute; reflexivity|].
  edestruct (createCert_validity_wraps Reference.env ["example.com"] Reference.ca
               Reference.caPrivateKey 2562048 Reference.s0) as [_ Hw].
  - vm_compute. left. reflexivity.
  - apply Hw. unfold maxHours. lia.
Defined.

(** ** More on the tunnel *)

(** X10.  Every certificate [proxyConnect] has signed is for the host part
    of the request target, as [net.SplitHostPort] returns it, and for
    nothing else; it is signed with the certificate and key of the proxy's
    CA, carries the serial number drawn in this call and certifies the key
    generated in this call. *)
Theorem proxyConnect_forges_for_host env p w req s template parent pub priv r :
  In (EvCreateCertificate template parent pub priv r)
     (events (proxyConnect env p w req s)) ->
  exists host port k,
    splitHostPort env (Host req) = Ok (host, port) /\
    DNSNames template = [host] /\
    parent = caCert p /\
    priv = caKey p /\
    generateKey env (draws s) = Ok k /\
    pub = PublicKey k /\
    randInt env (S (draws s)) serialNumberLimit = Ok (SerialNumber template).
Proof.
  run_program. repeat (answer; cbn).
  all: intros H; in_events H.
  all: injection H as <- <- <- <- <-.
  all: do 3 eexists; repeat split; cbn; eauto.
Qed.

Lemma proxyConnect_forges_for_host_witness :
  exists template,
    templates tunnel_events = [template] /\
    DNSNames template = ["example.com"] /\
    SerialNumber template = 12346.
Proof.
  eexists. split; [vm_compute; reflexivity|].
  edestruct (proxyConnect_forges_for_host Reference.env Reference.proxy 0%nat
               (Reference.connectTo "example.com:443") Reference.s0)
    as (host & port & k & Hs & Hd & _ & _ & _ & _ & Hn).
  - vm_compute. do 8 right. left. reflexivity.
  - vm_compute in Hs. injection Hs as <- <-.
    split; [exact Hd | reflexivity].
Defined.

(** X11.  The TLS handshake runs on the hijacked client connection, asks
    for TLS 1.3 at least, prefers the curves X25519 and P-256 in this order
    and the server's cipher suites, and presents one certificate: the key
    pair loaded from the PEM encoding of the certificate signed in this
    call. *)
Theorem proxyConnect_handshake_config env p w req s c cfg r :
  In (EvHandshake c cfg r) (events (proxyConnect env p w req s)) ->
  hijack env w = Ok c /\
  PreferServerCipherSuites cfg = true /\
  CurvePreferences cfg = [X25519; CurveP256] /\
  MinVersion cfg = VersionTLS13 /\
  exists tlsCert der pemCert pemKey,
    Certificates cfg = [tlsCert] /\
    x509KeyPair env pemCert pemKey = Ok tlsCert /\
    signed (events (proxyConnect env p w req s)) = [der] /\
    pemEncodeToMemory env
      {| Type_ := "CERTIFICATE"; Headers := []; Bytes := der |} = Some pemCert.
Proof.
  run_program. repeat (answer; cbn).
  all: intros H; in_events H.
  all: injection H as <- <- <-.
  all: repeat match goal with |- _ /\ _ => split end; try reflexivity; try assumption.
  all: do 4 eexists; repeat split; cbn; eauto.
Qed.

Lemma proxyConnect_handshake_config_witness :
  exists cfg,
    In (EvHandshake 100%nat cfg None) tunnel_events /\
    MinVersion cfg = VersionTLS13 /\
    CurvePreferences cfg = [X25519; CurveP256] /\
    length (Certificates cfg) = 1%nat.
Proof.
  destruct tunnel_handshake as [cfg H]. exists cfg.
  destruct (proxyConnect_handshake_config Reference.env Reference.proxy 0%nat
              (Reference.connectTo "example.com:443") Reference.s0
              100%nat cfg None H)
    as (_ & _ & Hc & Hm & tlsCert & _ & _ & _ & Hl & _).
  repeat split; try assumption. rewrite Hl. reflexivity.
Defined.

(** X12.  [proxyConnect] never panics.  It returns exactly when the dial
    failed or the handshake succeeded; every other run ends in
    [log.Fatal], whose message is then its last effect. *)
Theorem proxyConnect_outcomes env p w req s :
  outcome (proxyConnect env p w req s) <> Panic /\
  (outcome (proxyConnect env p w req s) = Done tt <->
   (exists err, dial env "tcp" (Host req) = Err err) \/
   (exists c cfg, In (EvHandshake c cfg None) (events (proxyConnect env p w req s)))) /\
  (outcome (proxyConnect env p w req s) = Fatal <->
   exists msg, List.last (events (proxyConnect env p w req s)) no_event = EvFatal msg).
Proof.
  run_program. repeat (answer; cbn).
  all: split; [discriminate|].
  all: split; split.
  all: try solve [intros _; eauto 10].
  all: try discriminate.
  all: try solve [intros [[err H]|(c & cfg & H)]; [discriminate | in_events H]].
  all: try solve [intros [msg H]; discriminate H].
  all: intros _; right; do 2 eexists; cbn; eauto 20.
Qed.

(** X13.  The certificate is forged between the hijack and the first
    write: in every run of [proxyConnect] a call of
    [x509.CreateCertificate] comes after the hijack has succeeded, and a
    write to a connection comes after a certificate has been signed. *)
Theorem proxyConnect_forges_before_writing env p w req s pre e post :
  events (proxyConnect env p w req s) = pre ++ e :: post ->
  (is_create e -> Exists hijacked pre) /\
  (is_write e -> Exists created pre).
Proof.
  intros Heq.
  assert (H1 : only_after hijacked is_create (events (proxyConnect env p w req s))).
  { clear. run_program. repeat (answer; cbn). all: ordered. }
  assert (H2 : only_after created is_write (events (proxyConnect env p w req s))).
  { clear. run_program. repeat (answer; cbn). all: ordered. }
  split; intros He; [exact (H1 pre e post Heq He) | exact (H2 pre e post Heq He)].
Qed.

Lemma proxyConnect_forges_before_writing_witness :
  (is_create (nth 8 tunnel_events no_event) ->
   Exists hijacked (firstn 8 tunnel_events)) /\
  (is_write (nth 8 tunnel_events no_event) ->
   Exists created (firstn 8 tunnel_events)).
Proof.
  apply (proxyConnect_forges_before_writing Reference.env Reference.proxy 0%nat
           (Reference.connectTo "example.com:443") Reference.s0
           (firstn 8 tunnel_events) (nth 8 tunnel_events no_event)
           (skipn 9 tunnel_events)).
  vm_compute. reflexivity.
Defined.

(** ** More on the accept loop *)

Lemma ServeHTTP_other_method env p w req s :
  Method req <> MethodConnect ->
  ServeHTTP env p w req s =
    mkRun (Done tt) s
      [EvHttpError w "this proxy only supports CONNECT" StatusMethodNotAllowed].
Proof.
  intros Hm. unfold ServeHTTP.
  destruct (decide (Method req = MethodConnect)); [contradiction | reflexivity].
Qed.

Lemma responses_app evs evs' :
  responses (evs ++ evs') = responses evs ++ responses evs'.
Proof.
  induction evs as [|[] evs IH]; cbn; rewrite ?IH; reflexivity.
Qed.

Lemma acceptLoop_turned_away_run env p conns s :
  Forall (turned_away env) conns ->
  outcome (acceptLoop (ServeHTTP env p) conns s) = Done tt /\
  final (acceptLoop (ServeHTTP env p) conns s) = s /\
  responses (events (acceptLoop (ServeHTTP env p) conns s)) = map refusal conns /\
  Forall (fun e => ~ is_hijack e /\ ~ is_write e)
    (events (acceptLoop (ServeHTTP env p) conns s)).
Proof.
  induction 1 as [|[w req] rest Hc _ (Ho & Hf & Hr & Ha)]; cbn [acceptLoop].
  - repeat split. constructor.
  - assert (E : exists evs,
               ServeHTTP env p w req s = mkRun (Done tt) s evs /\
               responses evs = [refusal (w, req)] /\
               Forall (fun e => ~ is_hijack e /\ ~ is_write e) evs).
    { unfold refusal. cbn [fst snd] in *.
      destruct (decide (Method req = MethodConnect)) as [Hm|Hm].
      - destruct Hc as [Hc|[err Hd]]; [contradiction|].
        rewrite (ServeHTTP_dial_failure env p w req s err Hm Hd).
        eexists. split; [reflexivity|]. split; [reflexivity|].
        repeat constructor; cbn; tauto.
      - rewrite (ServeHTTP_other_method env p w req s Hm).
        eexists. split; [reflexivity|]. split; [reflexivity|].
        repeat constructor; cbn; tauto. }
    destruct E as (evs & E & Er & Ea).
    rewrite (bind_Done _ _ _ _ _ _ E). cbn [outcome final events map].
    split; [exact Ho|]. split; [exact Hf|]. split.
    + rewrite responses_app, Er, Hr. reflexivity.
    + apply Forall_app. split; assumption.
Qed.

(** X14.  Requests that are turned away never stop the server.  When every
    inbound request is either not a CONNECT or a CONNECT whose target
    cannot be dialled, all of them are served and the loop returns, having
    used neither the clock nor the random source; the HTTP error responses
    are, up to their order, one for each request on its own response
    writer, 405 or 503, and no connection is hijacked or written to. *)
Theorem acceptLoop_turned_away env p conns s :
  Forall (turned_away env) conns ->
  outcome (acceptLoop (ServeHTTP env p) conns s) = Done tt /\
  final (acceptLoop (ServeHTTP env p) conns s) = s /\
  Permutation (responses (events (acceptLoop (ServeHTTP env p) conns s)))
    (map refusal conns) /\
  Forall (fun e => ~ is_hijack e /\ ~ is_write e)
    (events (acceptLoop (ServeHTTP env p) conns s)).
Proof.
  intros H.
  destruct (acceptLoop_turned_away_run env p conns s H) as (Ho & Hf & Hr & Ha).
  rewrite Hr. repeat split; try assumption. apply Permutation_refl.
Qed.

Lemma acceptLoop_turned_away_witness :
  outcome (acceptLoop (ServeHTTP Reference.env Reference.proxy) two_requests
             Reference.s0) = Done tt /\
  Permutation
    (responses (events (acceptLoop (ServeHTTP Reference.env Reference.proxy)
                          two_requests Reference.s0)))
    [(4%nat, 503); (0%nat, 405)].
Proof.
  destruct (acceptLoop_turned_away Reference.env Reference.proxy two_requests
              Reference.s0) as (Ho & _ & Hr & _).
  - apply Forall_cons; [left; cbn; discriminate|].
    apply Forall_cons; [right; eexists; reflexivity|]. apply Forall_nil.
  - split; [exact Ho|].
    eapply Permutation_trans; [exact Hr|]. apply perm_swap.
Defined.

Lemma templates_app evs evs' :
  templates (evs ++ evs') = templates evs ++ templates evs'.
Proof.
  induction evs as [|[] evs IH]; cbn; rewrite ?IH; reflexivity.
Qed.

Lemma ServeHTTP_forged env p w req s t :
  In t (templates (events (ServeHTTP env p w req s))) ->
  templates (events (ServeHTTP env p w req s)) = [t] /\
  final (ServeHTTP env p w req s)
    = {| ticks := S (S (ticks s)); draws := S (S (S (draws s))) |} /\
  randInt env (S (draws s)) serialNumberLimit = Ok (SerialNumber t) /\
  NotBefore t = clock env (ticks s).
Proof.
  unfold ServeHTTP. destruct (decide (Method req = MethodConnect)); [|intros []].
  run_program. repeat (answer; cbn).
  all: intros H; in_events H; subst t; cbn.
  all: repeat split; assumption.
Qed.

(** X15.  Nothing is kept from one tunnel to the next.  When a request that
    had a certificate signed has been served and the next one has a
    certificate signed too, the two certificates are separate pieces of
    work, even for the same host: the second serial number comes from a
    later draw on the random source (three draws after the first) and the
    second validity starts at a later reading of the clock (two readings
    after the first). *)
Theorem tunnels_forge_anew env p w1 req1 w2 req2 s t1 t2 :
  outcome (ServeHTTP env p w1 req1 s) = Done tt ->
  In t1 (templates (events (ServeHTTP env p w1 req1 s))) ->
  In t2 (templates (events (ServeHTTP env p w2 req2
                              (final (ServeHTTP env p w1 req1 s))))) ->
  templates (events (acceptLoop (ServeHTTP env p) [(w1, req1); (w2, req2)] s))
    = [t1; t2] /\
  randInt env (S (draws s)) serialNumberLimit = Ok (SerialNumber t1) /\
  randInt env (S (draws s) + 3) serialNumberLimit = Ok (SerialNumber t2) /\
  NotBefore t1 = clock env (ticks s) /\
  NotBefore t2 = clock env (ticks s + 2).
Proof.
  intros Ho H1 H2.
  destruct (ServeHTTP_forged _ _ _ _ _ _ H1) as (T1 & F1 & R1 & B1).
  destruct (ServeHTTP_forged _ _ _ _ _ _ H2) as (T2 & _ & R2 & B2).
  rewrite F1 in R2, B2. cbn in R2, B2.
  replace (S (draws s) + 3)%nat with (S (S (S (S (draws s))))) by lia.
  replace (ticks s + 2)%nat with (S (S (ticks s))) by lia.
  repeat split; try assumption.
  cbn [acceptLoop].
  repeat progress (rewrite ?bind_events, ?bind_outcome, ?bind_final, ?Ho).
  destruct (outcome (ServeHTTP env p w2 req2 (final (ServeHTTP env p w1 req1 s))));
    cbn; rewrite ?app_nil_r, templates_app, T1, T2; reflexivity.
Qed.

Lemma tunnels_forge_anew_witness :
  exists t1 t2,
    templates (events (acceptLoop (ServeHTTP Reference.env Reference.proxy)
                         [(0%nat, Reference.connectTo "example.com:443");
                          (5%nat, Reference.connectTo "example.com:443")]
                         Reference.s0)) = [t1; t2] /\
    DNSNames t1 = DNSNames t2 /\
    SerialNumber t1 = 12346 /\
    SerialNumber t2 = 12349.
Proof.
  eexists. eexists.
  edestruct (tunnels_forge_anew Reference.env Reference.proxy
               0%nat (Reference.connectTo "example.com:443")
               5%nat (Reference.connectTo "example.com:443") Reference.s0)
    as (Ht & _).
  - vm_compute. reflexivity.
  - vm_compute. left. reflexivity.
  - vm_compute. left. reflexivity.
  - split; [exact Ht|]. repeat split.
Defined.
